(** * hono-simple-google-auth: session resolution and the two authentication
      strategies

    A shallow embedding of [src/livemode.tsx] (LivemodeAuthImplementation),
    [src/testmode.tsx] (TestmodeAuthImplementation, the version with session
    scoping), [src/types.ts] and the dispatch in [src/index.tsx].

    Conventions of the embedding.
    - A JavaScript string is a [string]: a sequence of 8-bit code units.  The
      values the handlers parse by hand come from HTTP headers, which carry
      Latin-1 code units only.
    - An [async] function is a computation in the monad [M]: it threads the
      world (the host's session store, the per-request context of Hono) and
      either returns a value or throws.  State changes made before a throw
      persist, as in JavaScript.
    - What the host or the platform supplies (the session store, [fetch],
      [crypto.randomUUID], [Date.now], Hono's [getCookie] and body parsers)
      is a parameter: every theorem quantifies over it.
    - [c.header] and [setCookie] throw where the runtime's [Headers] and
      hono's cookie serialiser throw; reading a property of a JSON null
      body throws. *)

From Stdlib Require Import String Ascii List Bool ZArith Lia.
From stdpp Require Import gmap strings.
Import ListNotations.

Open Scope string_scope.
Open Scope list_scope.
Open Scope Z_scope.

(** ** JavaScript string primitives used by the handlers *)

Module JS.

(** Truthiness of a string: only the empty string is falsy. *)
Definition truthy (s : string) : bool :=
  match s with EmptyString => false | String _ _ => true end.

(** Truthiness of [string | undefined]. *)
Definition truthy_opt (o : option string) : bool :=
  match o with Some s => truthy s | None => false end.

(** [a || b] on strings where the left operand may be undefined. *)
Definition or_else (o : option string) (d : string) : string :=
  match o with
  | Some s => if truthy s then s else d
  | None => d
  end.

(** White space and line terminators of ECMAScript that fit a Latin-1 code
    unit: TAB, LF, VT, FF, CR, SP and NBSP. *)
Definition is_whitespace (a : ascii) : bool :=
  let n := nat_of_ascii a in
  (Nat.eqb n 9 || Nat.eqb n 10 || Nat.eqb n 11 || Nat.eqb n 12
   || Nat.eqb n 13 || Nat.eqb n 32 || Nat.eqb n 160)%bool.

Fixpoint trimStart (s : string) : string :=
  match s with
  | EmptyString => EmptyString
  | String a r => if is_whitespace a then trimStart r else s
  end.

Fixpoint trimEnd (s : string) : string :=
  match s with
  | EmptyString => EmptyString
  | String a r =>
      match trimEnd r with
      | EmptyString => if is_whitespace a then EmptyString else String a EmptyString
      | r' => String a r'
      end
  end.

(** [s.trim()] *)
Definition trim (s : string) : string := trimEnd (trimStart s).

(** [s.split(c)] for a one-character separator [c]: the pieces between the
    occurrences of [c]; never the empty array. *)
Fixpoint split (c : ascii) (s : string) : list string :=
  match s with
  | EmptyString => [EmptyString]
  | String a r =>
      if Ascii.eqb a c then EmptyString :: split c r
      else match split c r with
           | h :: t => String a h :: t
           | [] => [String a EmptyString]
           end
  end.

(** [s.startsWith(p)] *)
Definition startsWith (s p : string) : bool := String.prefix p s.

(** [arr[i]]: [undefined] out of range. *)
Definition index {A} (arr : list A) (i : nat) : option A := nth_error arr i.

End JS.

(** ** Data model ([src/types.ts]) *)

(** [ValidSessionData]; the field [signedIn: true] is the constructor
    [Valid] of [SessionData]. *)
Record ValidSessionData := mkValidSessionData {
  sessionId : string;
  name : string;
  email : string;
  credential : string
}.

(** [SessionData = ValidSessionData | InvalidSessionData]; [error] is
    optional in [InvalidSessionData]. *)
Inductive SessionData :=
| Valid (v : ValidSessionData)
| Invalid (error : option string).

(** [TokenInfo]; the fields are prefixed, [name] and [email] being fields of
    [ValidSessionData] already.  The code reads [name] and [email] only. *)
Record TokenInfo := mkTokenInfo {
  ti_iss : string;
  ti_nbf : string;
  ti_aud : string;
  ti_sub : string;
  ti_azp : string;
  ti_iat : string;
  ti_exp : string;
  ti_jti : string;
  ti_alg : string;
  ti_kid : string;
  ti_typ : string;
  ti_email : string;
  ti_email_verified : string;
  ti_name : string;
  ti_picture : string;
  ti_given_name : string;
  ti_family_name : string
}.

(** [SigninCallbackData] *)
Record SigninCallbackData := mkSigninCallbackData {
  cb_clientId : string;
  cb_credential : string;
  cb_g_csrf_token : string
}.

(** The body of POST /test/signin as [testSigninImpl] casts it:
    [{ email: string; name: string; sessionID?: string }], every field
    possibly missing from the JSON value.  The strings are taken in the
    Latin-1 range, like every [string] here; a session id with a wider code
    unit is rejected by [c.header] as one with a line feed is. *)
Record TestSigninBody := mkTestSigninBody {
  body_email : option string;
  body_name : option string;
  body_sessionID : option string
}.

(** What [c.req.json()] resolves to: JSON null, on which reading a
    property throws, or any other value.  A value that is not an object (a
    number, a string, a boolean, an array) has none of the three properties
    and is the body with every field absent. *)
Inductive ParsedJson :=
| JsonNull
| JsonObject (data : TestSigninBody).

Inductive Mode := livemode | testmode.

(** A settled promise: fulfilled with a value or rejected. *)
Inductive outcome (A : Type) :=
| Returns (a : A)
| Throws (e : string).
Arguments Returns {A} a.
Arguments Throws {A} e.

(** ** Responses and response headers *)

(** Options object handed to [setCookie] of hono/cookie. *)
Record CookieOptions := mkCookieOptions {
  httpOnly : bool;
  sameSite : string;
  path : string;
  maxAge : Z;
  domain : option string
}.

(** A header value: a string given to [c.header], or a cookie handed to
    [setCookie], which hono serialises. *)
Inductive HeaderValue :=
| Raw (s : string)
| Cookie (cname cvalue : string) (opt : CookieOptions).

Definition Headers := list (string * HeaderValue).

(** JSON payloads the handlers produce. *)
Inductive Json :=
| JError (error : string)
| JAlreadySignedIn (session : ValidSessionData)
| JSuccess (session : ValidSessionData).

Inductive Body :=
| JsonBody (j : Json)
| HtmlBody (html : string)
| TextBody (text : string)
| EmptyBody.

Record Response := mkResponse {
  status : Z;
  body : Body;
  headers : Headers
}.

(** [headers.set(name, v)]: replaces every header of that name. *)
Definition headers_set (k : string) (v : HeaderValue) (h : Headers) : Headers :=
  List.filter (fun e => negb (String.eqb (fst e) k)) h ++ [(k, v)].

(** [headers.append(name, v)] *)
Definition headers_append (k : string) (v : HeaderValue) (h : Headers) : Headers :=
  h ++ [(k, v)].

(** [headers.get(name)], first value. *)
Definition headers_get (k : string) (h : Headers) : option HeaderValue :=
  option_map snd (List.find (fun e => String.eqb (fst e) k) h).

(** ** What the runtime's [Headers] accept *)

(** HTTP white space: TAB, LF, CR and SP. *)
Definition is_http_whitespace (a : ascii) : bool :=
  let n := nat_of_ascii a in
  (Nat.eqb n 9 || Nat.eqb n 10 || Nat.eqb n 13 || Nat.eqb n 32)%bool.

Fixpoint http_trim_start (s : string) : string :=
  match s with
  | EmptyString => EmptyString
  | String a r => if is_http_whitespace a then http_trim_start r else s
  end.

Fixpoint http_trim_end (s : string) : string :=
  match s with
  | EmptyString => EmptyString
  | String a r =>
      match http_trim_end r with
      | EmptyString =>
          if is_http_whitespace a then EmptyString else String a EmptyString
      | r' => String a r'
      end
  end.

(** A header value is normalised before it is checked and stored: leading
    and trailing HTTP white space is removed. *)
Definition http_normalize (s : string) : string :=
  http_trim_end (http_trim_start s).

(** A legal header value has no NUL, LF or CR.  (Code units above 255,
    which [Headers] rejects as well, do not occur in a [string].) *)
Fixpoint header_value_ok (s : string) : bool :=
  match s with
  | EmptyString => true
  | String a r =>
      let n := nat_of_ascii a in
      negb (Nat.eqb n 0 || Nat.eqb n 10 || Nat.eqb n 13) && header_value_ok r
  end.

(** What [setCookie] of hono/cookie throws on, for a cookie without the
    Secure attribute (the handlers never set it): a name with the prefix
    __Secure- or __Host-, a Max-Age above 400 days, and a serialised cookie
    that is not a legal header value.  The serialisation starts with the
    name, carries the URI-encoded value and the domain, and ends with
    constant attributes. *)
Definition setCookie_error (cname : string) (opt : CookieOptions) : option string :=
  if JS.startsWith cname "__Secure-"
  then Some "__Secure- Cookie must have Secure attributes"
  else if JS.startsWith cname "__Host-"
  then Some "__Host- Cookie must have Secure attributes"
  else if (0 <=? maxAge opt) && (34560000 <? maxAge opt)
  then Some "Cookies Max-Age SHOULD NOT be greater than 400 days (34560000 seconds) in duration."
  else if header_value_ok (http_trim_start cname)
          && header_value_ok (match domain opt with Some d => d | None => "" end)
  then None
  else Some "TypeError: invalid header value".

(** ** The world a request runs in *)

(** Calls made on the host's session store, in order. *)
Inductive StoreCall :=
| CallGet (id : string)
| CallPut (data : ValidSessionData)
| CallDelete (id : string).

(** [options.sessionStore]: an object of the host over a state of its own.
    Each method settles to a value or rejects, and may change the state;
    [delete] is optional. *)
Record SessionStore (S : Type) := mkSessionStore {
  store_get : string -> S -> outcome (option ValidSessionData) * S;
  store_put : ValidSessionData -> S -> outcome unit * S;
  store_delete : option (string -> S -> outcome unit * S)
}.
Arguments store_get {S} _ _ _.
Arguments store_put {S} _ _ _.
Arguments store_delete {S} _.

(** [HonoSimpleGoogleAuthOptions] *)
Record Options (S : Type) := mkOptions {
  clientId : string;
  callbackUrl : string;
  sessionStore : SessionStore S;
  cookieName : option string;
  cookieDomain : option string;
  sessionDurationSeconds : option Z;
  (* a component that renders to a string, or to null *)
  renderSignInPage : option (string -> string -> option string);
  mode : Mode
}.
Arguments clientId {S} _.
Arguments callbackUrl {S} _.
Arguments sessionStore {S} _.
Arguments cookieName {S} _.
Arguments cookieDomain {S} _.
Arguments sessionDurationSeconds {S} _.
Arguments renderSignInPage {S} _.
Arguments mode {S} _.

(** What the handlers read of the incoming request through Hono. *)
Record Request := mkRequest {
  (* c.req.header('cookie') *)
  req_cookie_header : option string;
  (* getCookie(c, name) of hono/cookie: undefined when the cookie is not in
     the header, its value (possibly empty) otherwise *)
  req_getCookie : string -> option string;
  (* await c.req.json() *)
  req_json : outcome ParsedJson;
  (* await c.req.parseBody() *)
  req_parseBody : outcome SigninCallbackData
}.

(** A [Response] of [fetch]: [json] is what [response.json()] settles to,
    [None] standing for a falsy JSON value such as null. *)
Record FetchResponse := mkFetchResponse {
  fr_status : Z;
  fr_json : outcome (option TokenInfo)
}.

(** [response.ok] *)
Definition fr_ok (r : FetchResponse) : bool :=
  (200 <=? fr_status r) && (fr_status r <=? 299).

(** Platform functions, fixed for the duration of one request. *)
Record Platform := mkPlatform {
  fetch : string -> outcome FetchResponse;
  randomUUID : string;
  Date_now : string;
  (* the rendering of <GoogleSignInButton clientId loginUri /> *)
  GoogleSignInButton : string -> string -> string
}.

(** The host's store state and Hono's per-request context [c]. *)
Record World (S : Type) := mkWorld {
  w_store : S;
  w_calls : list StoreCall;
  (* c.var.session *)
  w_session : option SessionData;
  (* headers prepared on c for the response *)
  w_headers : Headers
}.
Arguments mkWorld {S} _ _ _ _.
Arguments w_store {S} _.
Arguments w_calls {S} _.
Arguments w_session {S} _.
Arguments w_headers {S} _.

(** ** The monad of asynchronous handlers *)

Definition M (S A : Type) : Type := World S -> outcome A * World S.

Definition ret {S A} (a : A) : M S A := fun w => (Returns a, w).

Definition throw {S A} (e : string) : M S A := fun w => (Throws e, w).

Definition bind {S A B} (m : M S A) (k : A -> M S B) : M S B :=
  fun w =>
    match m w with
    | (Returns a, w') => k a w'
    | (Throws e, w') => (Throws e, w')
    end.

(** [try { m } catch (error) { h }] *)
Definition try_catch {S A} (m : M S A) (h : string -> M S A) : M S A :=
  fun w =>
    match m w with
    | (Returns a, w') => (Returns a, w')
    | (Throws e, w') => h e w'
    end.

(** [await p] of a promise already settled. *)
Definition await {S A} (p : outcome A) : M S A := fun w => (p, w).

Declare Scope js_scope.
Delimit Scope js_scope with js.
Notation "x <- m ;; k" := (bind m (fun x => k))
  (at level 100, m at next level, right associativity) : js_scope.
Notation "m ;; k" := (bind m (fun _ => k))
  (at level 100, right associativity) : js_scope.
Open Scope js_scope.

Section Context_operations.
Context {S : Type}.

(** [await sessionStore.get(id)] *)
Definition call_get (st : SessionStore S) (id : string)
  : M S (option ValidSessionData) :=
  fun w =>
    let '(r, s') := store_get st id (w_store w) in
    (r, mkWorld s' (w_calls w ++ [CallGet id]) (w_session w) (w_headers w)).

(** [await sessionStore.put(data)] *)
Definition call_put (st : SessionStore S) (data : ValidSessionData)
  : M S unit :=
  fun w =>
    let '(r, s') := store_put st data (w_store w) in
    (r, mkWorld s' (w_calls w ++ [CallPut data]) (w_session w) (w_headers w)).

(** [await del(id)] for [del = sessionStore.delete] *)
Definition call_delete (del : string -> S -> outcome unit * S) (id : string)
  : M S unit :=
  fun w =>
    let '(r, s') := del id (w_store w) in
    (r, mkWorld s' (w_calls w ++ [CallDelete id]) (w_session w) (w_headers w)).

(** [c.set('session', v)] *)
Definition c_set_session (v : SessionData) : M S unit :=
  fun w => (Returns tt, mkWorld (w_store w) (w_calls w) (Some v) (w_headers w)).

(** [c.header(name, value)]: [headers.set] of the runtime, which throws a
    TypeError on a value that is not a legal header value and changes
    nothing then. *)
Definition c_header (k v : string) : M S unit :=
  fun w =>
    if header_value_ok (http_normalize v)
    then (Returns tt,
          mkWorld (w_store w) (w_calls w) (w_session w)
                  (headers_set k (Raw (http_normalize v)) (w_headers w)))
    else (Throws "TypeError: invalid header value", w).

(** [setCookie(c, name, value, opt)] of hono/cookie: serialises the cookie
    and appends it as a Set-Cookie header, or throws and changes nothing. *)
Definition setCookie (cname cvalue : string) (opt : CookieOptions) : M S unit :=
  fun w =>
    match setCookie_error cname opt with
    | Some e => (Throws e, w)
    | None =>
        (Returns tt,
         mkWorld (w_store w) (w_calls w) (w_session w)
                 (headers_append "Set-Cookie" (Cookie cname cvalue opt)
                                 (w_headers w)))
    end.

(** [c.json(j, status)], [c.json(j)] having status 200; the response
    carries the headers prepared on [c].  The Content-Type that hono adds
    to a response is left out of the model. *)
Definition c_json (j : Json) (st : Z) : M S Response :=
  fun w => (Returns (mkResponse st (JsonBody j) (w_headers w)), w).

(** [c.html(s)] *)
Definition c_html (s : string) : M S Response :=
  fun w => (Returns (mkResponse 200 (HtmlBody s) (w_headers w)), w).

(** [c.text(s)] *)
Definition c_text (s : string) : M S Response :=
  fun w => (Returns (mkResponse 200 (TextBody s) (w_headers w)), w).

(** [c.redirect(location)]: sets the Location header on [c] and answers
    with status 302. *)
Definition c_redirect (location : string) : M S Response :=
  fun w =>
    let h := headers_set "Location" (Raw location) (w_headers w) in
    (Returns (mkResponse 302 EmptyBody h),
     mkWorld (w_store w) (w_calls w) (w_session w) h).

End Context_operations.

(** ** Simulated strategy: [TestmodeAuthImplementation] *)

Module Testmode.
Section Impl.
Context {S : Type}.
Variable P : Platform.

Definition TEST_SESSION_ID : string := "testmode-session".

(** The sign-in form of [signinImpl]; the markup is abridged, the session
    id field is pre-filled with [Date.now()]. *)
Definition signinForm (now : string) : string :=
  "<html><body><h1>Test Mode Sign In</h1><form id=testSignin>"
  +:+ "<input id=sessionID value=" +:+ now +:+ " /></form></body></html>".

(** [sessionMiddlewareImpl], lines 7-33.  [split('=')[1]] exists for every
    string that starts with the cookie's name and '=' (lemma
    [split_eq_second] below), so the default of [nth] is never taken. *)
Definition sessionMiddlewareImpl (c : Request) (options : Options S)
    (next : M S unit) : M S unit :=
  let sessionStore := sessionStore options in
  let cookieHeader := req_cookie_header c in
  let sessionId :=
    match cookieHeader with
    | Some h =>
        if JS.truthy h then
          let cookies := map JS.trim (JS.split ";" h) in
          match List.find
                  (fun cookie => JS.startsWith cookie "testmode-session-id=")
                  cookies with
          | Some sessionCookie =>
              if JS.truthy sessionCookie
              then nth 1 (JS.split "=" sessionCookie) ""
              else TEST_SESSION_ID
          | None => TEST_SESSION_ID
          end
        else TEST_SESSION_ID
    | None => TEST_SESSION_ID
    end in
  try_catch
    (session <- call_get sessionStore sessionId ;;
     match session with
     | Some s => c_set_session (Valid s)
     | None => c_set_session (Invalid (Some "No test session"))
     end)
    (fun _ => c_set_session (Invalid (Some "Session store error"))) ;;
  next.

(** [signinImpl], lines 35-99.  The [return] inside [try] is the [Some]
    branch. *)
Definition signinImpl (c : Request) (options : Options S) : M S Response :=
  let sessionStore := sessionStore options in
  let cookieHeader := req_cookie_header c in
  let sessionId :=
    match cookieHeader with
    | Some h =>
        if JS.truthy h then
          let cookies := map JS.trim (JS.split ";" h) in
          match List.find
                  (fun cookie => JS.startsWith cookie "testmode-session-id=")
                  cookies with
          | Some sessionCookie =>
              if JS.truthy sessionCookie
              then nth 1 (JS.split "=" sessionCookie) ""
              else TEST_SESSION_ID
          | None => TEST_SESSION_ID
          end
        else TEST_SESSION_ID
    | None => TEST_SESSION_ID
    end in
  returned <-
    try_catch
      (currentSession <- call_get sessionStore sessionId ;;
       match currentSession with
       | Some s => r <- c_json (JAlreadySignedIn s) 200 ;; ret (Some r)
       | None => ret None
       end)
      (fun _ => ret None) ;;
  match returned with
  | Some r => ret r
  | None => c_html (signinForm (Date_now P))
  end.

(** [testSigninImpl], lines 101-138. *)
Definition testSigninImpl (c : Request) (options : Options S) : M S Response :=
  parsed <-
    try_catch
      (data <- await (req_json c) ;; ret (inl data))
      (fun _ => r <- c_json (JError "Invalid JSON body") 400 ;; ret (inr r)) ;;
  match parsed with
  | inr r => ret r
  | inl JsonNull =>
      (* data.email on null, outside the try *)
      throw "TypeError: Cannot read properties of null (reading 'email')"
  | inl (JsonObject data) =>
      match body_email data, body_name data with
      | Some data_email, Some data_name =>
          if negb (JS.truthy data_email) || negb (JS.truthy data_name)
          then c_json (JError "email and name are required") 400
          else
            let sessionId := JS.or_else (body_sessionID data) TEST_SESSION_ID in
            let sessionStore := sessionStore options in
            let session :=
              mkValidSessionData sessionId data_name data_email "test-credential" in
            try_catch
              (call_put sessionStore session ;;
               (if JS.truthy_opt (body_sessionID data)
                then c_header "Set-Cookie"
                       ("testmode-session-id=" +:+ sessionId
                        +:+ "; Path=/; SameSite=Lax")
                else ret tt) ;;
               c_json (JSuccess session) 200)
              (fun _ => c_json (JError "Failed to store session") 500)
      | _, _ => c_json (JError "email and name are required") 400
      end
  end.

(** [callbackImpl], lines 140-143. *)
Definition callbackImpl (c : Request) (_options : Options S) : M S Response :=
  c_redirect "/".

(** [signoutImpl], lines 145-174. *)
Definition signoutImpl (c : Request) (options : Options S) : M S Response :=
  let sessionStore := sessionStore options in
  let cookieHeader := req_cookie_header c in
  let sessionId :=
    match cookieHeader with
    | Some h =>
        if JS.truthy h then
          let cookies := map JS.trim (JS.split ";" h) in
          match List.find
                  (fun cookie => JS.startsWith cookie "testmode-session-id=")
                  cookies with
          | Some sessionCookie =>
              if JS.truthy sessionCookie
              then nth 1 (JS.split "=" sessionCookie) ""
              else TEST_SESSION_ID
          | None => TEST_SESSION_ID
          end
        else TEST_SESSION_ID
    | None => TEST_SESSION_ID
    end in
  try_catch
    ((match store_delete sessionStore with
      | Some del => call_delete del sessionId
      | None => ret tt
      end) ;;
     (if negb (String.eqb sessionId TEST_SESSION_ID)
      then c_header "Set-Cookie"
             "testmode-session-id=; Path=/; SameSite=Lax; Max-Age=0"
      else ret tt))
    (fun _ => ret tt) ;;
  c_redirect "/".

End Impl.
End Testmode.

(** ** Live strategy: [LivemodeAuthImplementation] *)

Module Livemode.
Section Impl.
Context {S : Type}.
Variable P : Platform.

(** [verifyCredential], lines 7-15. *)
Definition verifyCredential (credential : string) : M S (option TokenInfo) :=
  try_catch
    (response <- await (fetch P ("https://oauth2.googleapis.com/tokeninfo?id_token="
                                  +:+ credential)) ;;
     if negb (fr_ok response) then ret None
     else await (fr_json response))
    (fun _ => ret None).

(** [sessionMiddlewareImpl], lines 18-37. *)
Definition sessionMiddlewareImpl (c : Request) (options : Options S)
    (next : M S unit) : M S unit :=
  let COOKIE_NAME := JS.or_else (cookieName options) "auth_session_cookie" in
  let sessionStore := sessionStore options in
  let sessionId := req_getCookie c COOKIE_NAME in
  (match sessionId with
   | Some id =>
       if JS.truthy id then
         try_catch
           (session <- call_get sessionStore id ;;
            match session with
            | Some s => c_set_session (Valid s)
            | None => c_set_session (Invalid (Some "Session not found"))
            end)
           (fun _ => c_set_session (Invalid (Some "Session store error")))
       else c_set_session (Invalid (Some "No session cookie"))
   | None => c_set_session (Invalid (Some "No session cookie"))
   end) ;;
  next.

(** [signinImpl], lines 39-57.  A record of the store has
    [signedIn: true]. *)
Definition signinImpl (c : Request) (options : Options S) : M S Response :=
  let COOKIE_NAME := JS.or_else (cookieName options) "auth_session_cookie" in
  let sessionStore := sessionStore options in
  let sessionId := req_getCookie c COOKIE_NAME in
  session <-
    (match sessionId with
     | Some id => if JS.truthy id then call_get sessionStore id else ret None
     | None => ret None
     end) ;;
  match session with
  | Some _ => c_redirect "/"
  | None =>
      let clientId := clientId options in
      let loginUri := callbackUrl options in
      match renderSignInPage options with
      | Some render =>
          let page := render clientId loginUri in
          c_html (match page with Some p => p | None => "" end)
      | None => c_html (GoogleSignInButton P clientId loginUri)
      end
  end.

(** [options.sessionDurationSeconds || 3600 * 24 * 365] *)
Definition SESSION_DURATION (options : Options S) : Z :=
  match sessionDurationSeconds options with
  | Some n => if n =? 0 then 3600 * 24 * 365 else n
  | None => 3600 * 24 * 365
  end.

(** [...(COOKIE_DOMAIN ? { domain: COOKIE_DOMAIN } : {})] *)
Definition domain_option (COOKIE_DOMAIN : option string) : option string :=
  if JS.truthy_opt COOKIE_DOMAIN then COOKIE_DOMAIN else None.

(** [callbackImpl], lines 59-85. *)
Definition callbackImpl (c : Request) (options : Options S) : M S Response :=
  let COOKIE_NAME := JS.or_else (cookieName options) "auth_session_cookie" in
  let COOKIE_DOMAIN := cookieDomain options in
  let sessionStore := sessionStore options in
  data <- await (req_parseBody c) ;;
  tokenInfo <- verifyCredential (cb_credential data) ;;
  match tokenInfo with
  | Some tokenInfo =>
      let session :=
        mkValidSessionData (randomUUID P) (ti_name tokenInfo)
                           (ti_email tokenInfo) (cb_credential data) in
      call_put sessionStore session ;;
      setCookie COOKIE_NAME (sessionId session)
        (mkCookieOptions true "Lax" "/" (SESSION_DURATION options)
                         (domain_option COOKIE_DOMAIN)) ;;
      c_redirect "/"
  | None => c_text "Invalid Google Sign-In"
  end.

(** [signoutImpl], lines 87-98. *)
Definition signoutImpl (c : Request) (options : Options S) : M S Response :=
  let COOKIE_NAME := JS.or_else (cookieName options) "auth_session_cookie" in
  let COOKIE_DOMAIN := cookieDomain options in
  setCookie COOKIE_NAME ""
    (mkCookieOptions true "Lax" "/" 0 (domain_option COOKIE_DOMAIN)) ;;
  c_redirect "/".

End Impl.
End Livemode.

(** ** Dispatch ([src/index.tsx]) *)

(** [interface HonoSimpleGoogleAuthImplementation] *)
Record HonoSimpleGoogleAuthImplementation (S : Type) := mkImplementation {
  sessionMiddlewareImpl : Request -> Options S -> M S unit -> M S unit;
  signinImpl : Request -> Options S -> M S Response;
  callbackImpl : Request -> Options S -> M S Response;
  signoutImpl : Request -> Options S -> M S Response;
  testSigninImpl : option (Request -> Options S -> M S Response)
}.
Arguments sessionMiddlewareImpl {S} _.
Arguments signinImpl {S} _.
Arguments callbackImpl {S} _.
Arguments signoutImpl {S} _.
Arguments testSigninImpl {S} _.

Section Index.
Context {S : Type}.
Variable P : Platform.

Definition TestmodeAuthImplementation : HonoSimpleGoogleAuthImplementation S :=
  mkImplementation S
    (Testmode.sessionMiddlewareImpl) (Testmode.signinImpl P)
    (Testmode.callbackImpl) (Testmode.signoutImpl)
    (Some (Testmode.testSigninImpl)).

Definition LivemodeAuthImplementation : HonoSimpleGoogleAuthImplementation S :=
  mkImplementation S
    (Livemode.sessionMiddlewareImpl) (Livemode.signinImpl P)
    (Livemode.callbackImpl P) (Livemode.signoutImpl)
    None.

(** [optionsMiddleware]: the implementation chosen from [options.mode]. *)
Definition authImplementation (options : Options S)
  : HonoSimpleGoogleAuthImplementation S :=
  match mode options with
  | testmode => TestmodeAuthImplementation
  | livemode => LivemodeAuthImplementation
  end.

(** [googleAuth.session] *)
Definition sessionMiddleware (c : Request) (options : Options S)
    (next : M S unit) : M S unit :=
  sessionMiddlewareImpl (authImplementation options) c options next.

(** GET /signin *)
Definition route_signin (c : Request) (options : Options S) : M S Response :=
  signinImpl (authImplementation options) c options.

(** POST /test/signin *)
Definition route_test_signin (c : Request) (options : Options S) : M S Response :=
  match testSigninImpl (authImplementation options) with
  | None => c_json (JError "Testmode not enabled") 400
  | Some impl => impl c options
  end.

(** POST /callback *)
Definition route_callback (c : Request) (options : Options S) : M S Response :=
  callbackImpl (authImplementation options) c options.

(** GET /signout *)
Definition route_signout (c : Request) (options : Options S) : M S Response :=
  signoutImpl (authImplementation options) c options.

End Index.

(** ** Reference stores *)

(** The in-memory store of the README and of the test suite: a [Map] keyed
    by session id. *)
Definition MapStore : SessionStore (gmap string ValidSessionData) :=
  mkSessionStore _
    (fun id m => (Returns (m !! id), m))
    (fun data m => (Returns tt, <[sessionId data := data]> m))
    (Some (fun id m => (Returns tt, delete id m))).

(** A store whose every method rejects, as [mockRejectedValue] makes one in
    the test suite. *)
Definition RejectingStore (e : string) : SessionStore unit :=
  mkSessionStore _
    (fun _ u => (Throws e, u))
    (fun _ u => (Throws e, u))
    (Some (fun _ u => (Throws e, u))).

(** The in-memory store with a [delete] that rejects. *)
Definition MapStoreRejectingDelete (e : string)
  : SessionStore (gmap string ValidSessionData) :=
  mkSessionStore _
    (store_get MapStore) (store_put MapStore)
    (Some (fun _ m => (Throws e, m))).

(** ** Session id resolution of the Simulated strategy, stated apart *)

Module Scoping.

(** The text of [s] before its first [c]; all of [s] when [c] does not
    occur. *)
Fixpoint before (c : ascii) (s : string) : string :=
  match s with
  | EmptyString => EmptyString
  | String a r => if Ascii.eqb a c then EmptyString else String a (before c r)
  end.

Fixpoint contains (c : ascii) (s : string) : bool :=
  match s with
  | EmptyString => false
  | String a r => Ascii.eqb a c || contains c r
  end.

Fixpoint drop (n : nat) (s : string) : string :=
  match n, s with
  | O, _ => s
  | Datatypes.S n', String _ r => drop n' r
  | Datatypes.S _, EmptyString => EmptyString
  end.


Definition cookiePrefix : string := "testmode-session-id=".

(** The scoping cookie of a Cookie header: the first of its ';'-separated
    pairs that, trimmed, starts with the cookie's name and '='. *)
Definition scopingCookie (cookieHeader : option string) : option string :=
  match cookieHeader with
  | Some h =>
      if JS.truthy h
      then List.find (fun cookie => JS.startsWith cookie cookiePrefix)
                     (map JS.trim (JS.split ";" h))
      else None
  | None => None
  end.

(** The value of a scoping cookie: what follows the name and '='. *)
Definition cookieValue (sessionCookie : string) : string :=
  drop (String.length cookiePrefix) sessionCookie.


(** Session id resolution as the three handlers compute it: the value of
    the scoping cookie up to its first '='. *)
Definition resolved_sessionId (cookieHeader : option string) : string :=
  match scopingCookie cookieHeader with
  | Some sessionCookie => before "=" (cookieValue sessionCookie)
  | None => Testmode.TEST_SESSION_ID
  end.

End Scoping.

(** ** Lemmas on the string primitives *)

Section String_lemmas.
Import JS Scoping.

Lemma split_not_nil c s : split c s <> [].
Proof.
  destruct s as [|a r]; simpl; [discriminate|].
  destruct (Ascii.eqb a c); [discriminate|].
  destruct (split c r); discriminate.
Qed.

Lemma split_head c s : nth 0 (split c s) "" = before c s.
Proof.
  induction s as [|a r IH]; simpl; [reflexivity|].
  destruct (Ascii.eqb a c); [reflexivity|].
  destruct (split c r) as [|h t] eqn:E.
  - exfalso. exact (split_not_nil c r E).
  - simpl in *. now rewrite IH.
Qed.

Lemma split_cons_other c a r :
  Ascii.eqb a c = false ->
  split c (String a r) =
    String a (nth 0 (split c r) "") :: tl (split c r).
Proof.
  intros E. simpl. rewrite E.
  destruct (split c r) as [|h t] eqn:E2; [|reflexivity].
  exfalso. exact (split_not_nil c r E2).
Qed.

Lemma prefix_app p s : String.prefix p s = true -> s = p +:+ drop (String.length p) s.
Proof.
  revert s. induction p as [|a p IH]; intros s H; [reflexivity|].
  destruct s as [|b s]; simpl in H; [discriminate|].
  destruct (ascii_dec a b) as [e|e]; [subst b|discriminate].
  change (String a s = String a (p +:+ drop (String.length p) s)).
  f_equal. now apply IH.
Qed.

(** [split('=')[1]] of a string that starts with the cookie's name and
    '=': it exists and is the value up to its first '='. *)
Lemma split_eq_second sessionCookie :
  startsWith sessionCookie cookiePrefix = true ->
  index (split "=" sessionCookie) 1 = Some (before "=" (cookieValue sessionCookie))
  /\ nth 1 (split "=" sessionCookie) "" = before "=" (cookieValue sessionCookie).
Proof.
  intros H. apply prefix_app in H. unfold cookieValue.
  set (v := drop (String.length cookiePrefix) sessionCookie) in *.
  rewrite H. unfold cookiePrefix, index.
  change ("testmode-session-id=" +:+ v)
    with ("testmode-session-id" +:+ String "=" v).
  assert (E : forall p, contains "=" p = false ->
            nth_error (split "=" (p +:+ String "=" v)) 1 = Some (before "=" v)
            /\ nth 1 (split "=" (p +:+ String "=" v)) "" = before "=" v).
  { induction p as [|a p IH]; intros Hp.
    - simpl. destruct (split "=" v) as [|h t] eqn:E.
      + exfalso. exact (split_not_nil _ _ E).
      + pose proof (split_head "=" v) as Hh. rewrite E in Hh. simpl in Hh.
        now rewrite Hh.
    - simpl in Hp. apply orb_false_iff in Hp as [Ha Hp].
      change (String a p +:+ String "=" v) with (String a (p +:+ String "=" v)).
      rewrite (split_cons_other _ _ _ Ha).
      destruct (IH Hp) as [IH1 IH2].
      destruct (split "=" (p +:+ String "=" v)) as [|h t]; [discriminate|].
      simpl in *. auto. }
  apply E. reflexivity.
Qed.

Lemma startsWith_truthy s : startsWith s cookiePrefix = true -> truthy s = true.
Proof. destruct s; [discriminate | reflexivity]. Qed.

Lemma find_startsWith l c :
  List.find (fun cookie => startsWith cookie cookiePrefix) l = Some c ->
  startsWith c cookiePrefix = true.
Proof. intros H. now apply find_some in H as [_ H]. Qed.

End String_lemmas.

(** ** Lemmas on header values *)

Lemma header_value_ok_app a b :
  header_value_ok (a +:+ b) = header_value_ok a && header_value_ok b.
Proof.
  induction a as [|x a IH]; [reflexivity|].
  change (String x a +:+ b) with (String x (a +:+ b)). simpl.
  rewrite IH. now rewrite andb_assoc.
Qed.

Lemma http_trim_end_app s t :
  t <> "" -> http_trim_end t = t -> http_trim_end (s +:+ t) = s +:+ t.
Proof.
  intros Ht E. induction s as [|a s IH].
  - exact E.
  - change (String a s +:+ t) with (String a (s +:+ t)). simpl. rewrite IH.
    destruct s; [destruct t; [contradiction | reflexivity] | reflexivity].
Qed.

(** The header test-signin sets is stored as it is written, and is legal
    exactly when the session id is. *)
Lemma scoping_header_value s :
  http_normalize ("testmode-session-id=" +:+ s +:+ "; Path=/; SameSite=Lax")
    = "testmode-session-id=" +:+ s +:+ "; Path=/; SameSite=Lax"
  /\ header_value_ok ("testmode-session-id=" +:+ s +:+ "; Path=/; SameSite=Lax")
     = header_value_ok s.
Proof.
  split.
  - unfold http_normalize.
    change (http_trim_start ("testmode-session-id=" +:+ s +:+ "; Path=/; SameSite=Lax"))
      with ("testmode-session-id=" +:+ s +:+ "; Path=/; SameSite=Lax").
    apply http_trim_end_app.
    + destruct s; discriminate.
    + apply http_trim_end_app; [discriminate | reflexivity].
  - rewrite !header_value_ok_app. simpl. now rewrite andb_true_r.
Qed.

(** ** What each operation of the Simulated strategy does to the world *)

(** The session value the middlewares set from the outcome of
    [sessionStore.get]; [missing] is the error used when there is no
    record. *)
Definition session_of_get (missing : string)
    (r : outcome (option ValidSessionData)) : SessionData :=
  match r with
  | Returns (Some s) => Valid s
  | Returns None => Invalid (Some missing)
  | Throws _ => Invalid (Some "Session store error")
  end.

(** The world after one guarded lookup of [id] and [c.set('session', ...)]. *)
Definition world_after_lookup {S} (st : SessionStore S) (id missing : string)
    (w : World S) : World S :=
  mkWorld (snd (store_get st id (w_store w)))
          (w_calls w ++ [CallGet id])
          (Some (session_of_get missing (fst (store_get st id (w_store w)))))
          (w_headers w).

(** The world after [c.set('session', v)]. *)
Definition world_with_session {S} (v : SessionData) (w : World S) : World S :=
  mkWorld (w_store w) (w_calls w) (Some v) (w_headers w).

(** The world after [c.header] or [setCookie] changed the headers to [h]. *)
Definition world_with_headers {S} (h : Headers) (w : World S) : World S :=
  mkWorld (w_store w) (w_calls w) (w_session w) h.

(** The world after the optional [sessionStore.delete(id)]. *)
Definition world_after_delete {S} (st : SessionStore S) (id : string)
    (w : World S) : World S :=
  match store_delete st with
  | Some del =>
      mkWorld (snd (del id (w_store w))) (w_calls w ++ [CallDelete id])
              (w_session w) (w_headers w)
  | None => w
  end.

(** Whether the optional [sessionStore.delete(id)] rejects. *)
Definition delete_throws {S} (st : SessionStore S) (id : string)
    (w : World S) : bool :=
  match store_delete st with
  | Some del =>
      match fst (del id (w_store w)) with Throws _ => true | Returns _ => false end
  | None => false
  end.

Section Testmode_lemmas.
Context {S : Type}.
Import JS Scoping.

(** The session id computed inline by the three handlers. *)
Lemma inline_sessionId (cookieHeader : option string) :
  match cookieHeader with
  | Some h =>
      if truthy h then
        match List.find
                (fun cookie => startsWith cookie "testmode-session-id=")
                (map trim (split ";" h)) with
        | Some sessionCookie =>
            if truthy sessionCookie
            then nth 1 (split "=" sessionCookie) ""
            else Testmode.TEST_SESSION_ID
        | None => Testmode.TEST_SESSION_ID
        end
      else Testmode.TEST_SESSION_ID
  | None => Testmode.TEST_SESSION_ID
  end = resolved_sessionId cookieHeader.
Proof.
  unfold resolved_sessionId, scopingCookie.
  destruct cookieHeader as [h|]; [|reflexivity].
  destruct (truthy h); [|reflexivity].
  change "testmode-session-id=" with cookiePrefix.
  destruct (List.find _ _) as [sc|] eqn:F; [|reflexivity].
  apply find_startsWith in F.
  rewrite (startsWith_truthy _ F).
  now destruct (split_eq_second _ F).
Qed.

Lemma middleware_eq (c : Request) (o : Options S) (next : M S unit) (w : World S) :
  Testmode.sessionMiddlewareImpl c o next w =
  next (world_after_lookup (sessionStore o)
          (resolved_sessionId (req_cookie_header c)) "No test session" w).
Proof.
  unfold Testmode.sessionMiddlewareImpl. cbv zeta.
  rewrite inline_sessionId.
  set (id := resolved_sessionId _).
  unfold bind, try_catch, call_get, world_after_lookup, session_of_get.
  destruct (store_get (sessionStore o) id (w_store w)) as [[[s|]|e] s'];
    reflexivity.
Qed.

Lemma signin_eq (P : Platform) (c : Request) (o : Options S) (w : World S) :
  let id := resolved_sessionId (req_cookie_header c) in
  let w' := mkWorld (snd (store_get (sessionStore o) id (w_store w)))
                    (w_calls w ++ [CallGet id]) (w_session w) (w_headers w) in
  Testmode.signinImpl P c o w =
  (Returns
     (match fst (store_get (sessionStore o) id (w_store w)) with
      | Returns (Some s) =>
          mkResponse 200 (JsonBody (JAlreadySignedIn s)) (w_headers w)
      | _ => mkResponse 200 (HtmlBody (Testmode.signinForm (Date_now P)))
                        (w_headers w)
      end), w').
Proof.
  unfold Testmode.signinImpl. cbv zeta.
  rewrite inline_sessionId.
  set (id := resolved_sessionId _).
  unfold bind, try_catch, call_get.
  destruct (store_get (sessionStore o) id (w_store w)) as [[[s|]|e] s'];
    reflexivity.
Qed.

Lemma signout_eq (c : Request) (o : Options S) (w : World S) :
  let id := resolved_sessionId (req_cookie_header c) in
  let w1 := world_after_delete (sessionStore o) id w in
  let h :=
    if negb (delete_throws (sessionStore o) id w)
       && negb (String.eqb id Testmode.TEST_SESSION_ID)
    then headers_set "Set-Cookie"
           (Raw "testmode-session-id=; Path=/; SameSite=Lax; Max-Age=0")
           (w_headers w)
    else w_headers w in
  Testmode.signoutImpl c o w =
  (Returns (mkResponse 302 EmptyBody (headers_set "Location" (Raw "/") h)),
   world_with_headers (headers_set "Location" (Raw "/") h) w1).
Proof.
  unfold Testmode.signoutImpl. cbv zeta.
  rewrite inline_sessionId.
  set (id := resolved_sessionId _).
  unfold bind, try_catch, call_delete, world_after_delete, delete_throws,
    world_with_headers, c_redirect, c_header, ret.
  destruct (store_delete (sessionStore o)) as [del|].
  - destruct (del id (w_store w)) as [[[]|e] s']; simpl;
      destruct (String.eqb id Testmode.TEST_SESSION_ID); reflexivity.
  - simpl. destruct (String.eqb id Testmode.TEST_SESSION_ID);
      destruct w; reflexivity.
Qed.

End Testmode_lemmas.

(** ** Sample inputs, after the test suite *)

Definition samplePlatform : Platform :=
  mkPlatform (fun _ => Throws "Network error")
             "3f0c2a6e-0000-4000-8000-000000000001" "1700000000000"
             (fun clientId loginUri => "g_id_onload " +:+ clientId +:+ " " +:+ loginUri).

(** A request that carries the given Cookie header and no body. *)
Definition request_with_cookie (cookieHeader : option string) : Request :=
  mkRequest cookieHeader (fun _ => None) (Throws "no body") (Throws "no body").

Definition testmodeOptions {S} (st : SessionStore S) : Options S :=
  mkOptions S "test-client-id" "http://localhost:3000/auth/callback" st
            None None None None testmode.

Definition livemodeOptions {S} (st : SessionStore S) : Options S :=
  mkOptions S "test-client-id" "http://localhost:3000/auth/callback" st
            None None None None livemode.

(** A fresh context over the given store state. *)
Definition fresh {S} (s : S) : World S := mkWorld s [] None [].

Definition session_of (id n e : string) : ValidSessionData :=
  mkValidSessionData id n e "test-credential".

(** ** C1: one session id resolution for every store access *)




(** ** C2: a scoping cookie with an empty value *)

(** The Cookie header of the test 'should handle malformed cookies
    gracefully'. *)
Definition emptyScopingCookieHeader : string :=
  "testmode-session-id=; some-other-cookie=value".

(** C2 at its failing input.  With a record stored under the default id and
    the header [testmode-session-id=; some-other-cookie=value], the
    middleware looks the store up under the empty string, not under
    [testmode-session], and so finds no session although the default
    session exists.  The sibling paths take an empty id for an absent one:
    test-signin with the sessionID [''] stores under the default id and
    sets no cookie, and the Live middleware answers an empty session cookie
    as a missing one, without a lookup. *)
Theorem C2_empty_value_looked_up_under_empty_string :
  let c := request_with_cookie (Some emptyScopingCookieHeader) in
  let o := testmodeOptions MapStore in
  let john := session_of "testmode-session" "John Doe" "john@example.com" in
  let w := fresh (<["testmode-session" := john]> ∅ : gmap string ValidSessionData) in
  let w' := snd (Testmode.sessionMiddlewareImpl c o (ret tt) w) in
  (w_calls w' = [CallGet ""]
   /\ w_calls w' <> [CallGet "testmode-session"]
   /\ w_session w' = Some (Invalid (Some "No test session"))
   /\ w_store w !! "testmode-session" = Some john)
  /\ Testmode.testSigninImpl
       (mkRequest None (fun _ => None)
          (Returns (JsonObject (mkTestSigninBody (Some "john@example.com")
                                  (Some "John Doe") (Some ""))))
          (Throws "no body"))
       o (fresh ∅)
     = (Returns (mkResponse 200 (JsonBody (JSuccess john)) []),
        mkWorld (<["testmode-session" := john]> ∅) [CallPut john] None [])
  /\ snd (Livemode.sessionMiddlewareImpl
            (mkRequest (Some "auth_session_cookie=")
               (fun n => if String.eqb n "auth_session_cookie" then Some "" else None)
               (Throws "no body") (Throws "no body"))
            (mkOptions _ "test-client-id" "http://localhost:3000/auth/callback"
               MapStore None None None None livemode)
            (ret tt) w)
     = mkWorld (w_store w) [] (Some (Invalid (Some "No session cookie"))) [].
Proof.
  repeat split; try reflexivity.
  vm_compute. discriminate.
Qed.

(** What the three handlers of the Simulated strategy do for every header
    whose scoping cookie has an empty value: the resolved session id is the
    empty string, under which the middleware and render-signin look the
    store up and handle-signout deletes. *)
Lemma empty_scoping_cookie_resolves_to_empty_id :
  forall (S : Type) (P : Platform) (c : Request) (o : Options S)
         (w : World S) (next : M S unit),
    Scoping.scopingCookie (req_cookie_header c) = Some "testmode-session-id=" ->
    Scoping.resolved_sessionId (req_cookie_header c) = ""
    /\ Testmode.sessionMiddlewareImpl c o next w =
         next (world_after_lookup (sessionStore o) "" "No test session" w)
    /\ w_calls (snd (Testmode.signinImpl P c o w)) = w_calls w ++ [CallGet ""]
    /\ w_calls (snd (Testmode.signoutImpl c o w)) =
         w_calls w ++ match store_delete (sessionStore o) with
                      | Some _ => [CallDelete ""]
                      | None => []
                      end.
Proof.
  intros S P c o w next H.
  assert (E : Scoping.resolved_sessionId (req_cookie_header c) = "").
  { unfold Scoping.resolved_sessionId. now rewrite H. }
  repeat split.
  - exact E.
  - rewrite middleware_eq, E. reflexivity.
  - rewrite signin_eq, E. reflexivity.
  - rewrite signout_eq, E. unfold world_with_headers, world_after_delete. simpl.
    destruct (store_delete (sessionStore o)); simpl; [reflexivity|].
    now rewrite app_nil_r.
Qed.

(** ** Lemmas on responses *)

Lemma headers_get_set k v h : headers_get k (headers_set k v h) = Some v.
Proof.
  unfold headers_get, headers_set.
  induction h as [|[k' v'] h IH]; simpl.
  - now rewrite String.eqb_refl.
  - destruct (String.eqb k' k) eqn:E; simpl; [exact IH|].
    now rewrite E.
Qed.

Lemma headers_get_set_other k k' v h :
  String.eqb k' k = false ->
  headers_get k (headers_set k' v h) = headers_get k h.
Proof.
  intros N. unfold headers_get, headers_set.
  induction h as [|[k0 v0] h IH]; simpl.
  - now rewrite N.
  - destruct (String.eqb k0 k') eqn:E; simpl.
    + apply String.eqb_eq in E. subst k0. now rewrite N.
    + destruct (String.eqb k0 k); [reflexivity | exact IH].
Qed.

(** A request as hono presents it when the Cookie header is the single
    pair [cname=cvalue]. *)
Definition request_with_session_cookie (cname cvalue : string) : Request :=
  mkRequest (Some (cname +:+ "=" +:+ cvalue))
            (fun n => if String.eqb n cname then Some cvalue else None)
            (Throws "no body") (Throws "no body").

(** A platform whose token-info endpoint accepts every credential. *)
Definition acceptingPlatform : Platform :=
  mkPlatform
    (fun _ => Returns (mkFetchResponse 200
                (Returns (Some (mkTokenInfo
                   "https://accounts.google.com" "1700000000" "test-client-id"
                   "1234567890" "test-client-id" "1700000000" "1700003600"
                   "jti" "RS256" "kid" "JWT" "test@example.com" "true"
                   "Test User" "" "Test" "User")))))
    "3f0c2a6e-0000-4000-8000-000000000001" "1700000000000"
    (fun clientId loginUri => "g_id_onload " +:+ clientId +:+ " " +:+ loginUri).

(** ** C3: propagation of store failures *)

(** C3 at its failing inputs.  In Live mode render-signin awaits
    [sessionStore.get] and handle-callback awaits [sessionStore.put] outside
    any [try]: with a store that rejects, GET /signin carrying a session
    cookie and POST /callback with an accepted credential both throw. *)
Theorem C3_livemode_store_failure_propagates :
  let o := livemodeOptions (RejectingStore "Session store error") in
  Livemode.signinImpl samplePlatform
    (request_with_session_cookie "auth_session_cookie" "error-session-id")
    o (fresh tt)
  = (Throws "Session store error",
     mkWorld tt [CallGet "error-session-id"] None [])
  /\ Livemode.callbackImpl acceptingPlatform
       (mkRequest None (fun _ => None) (Throws "no body")
          (Returns (mkSigninCallbackData "test-client-id" "valid-token" "")))
       o (fresh tt)
     = (Throws "Session store error",
        mkWorld tt
          [CallPut (mkValidSessionData "3f0c2a6e-0000-4000-8000-000000000001"
                      "Test User" "test@example.com" "valid-token")]
          None []).
Proof. split; reflexivity. Qed.

(** The operations that catch store failures: render-signin, test-signin,
    handle-callback and handle-signout of the Simulated strategy return a
    response whatever the store does, test-signin for every body other than
    JSON null. *)
Lemma catching_operations_return :
  forall (S : Type) (P : Platform) (c : Request) (o : Options S) (w : World S),
    (exists r w', Testmode.signinImpl P c o w = (Returns r, w'))
    /\ (req_json c <> Returns JsonNull ->
        exists r w', Testmode.testSigninImpl c o w = (Returns r, w'))
    /\ (exists r w', Testmode.callbackImpl c o w = (Returns r, w'))
    /\ (exists r w', Testmode.signoutImpl c o w = (Returns r, w')).
Proof.
  intros S P c o w. repeat split.
  - rewrite signin_eq. eauto.
  - intros N.
    unfold Testmode.testSigninImpl, bind, try_catch, await, c_json, ret,
      call_put, c_header.
    destruct (req_json c) as [[|data]|e]; [contradiction| |eauto].
    destruct (body_email data) as [em|]; [|eauto].
    destruct (body_name data) as [nm|]; [|eauto].
    destruct (negb (JS.truthy em) || negb (JS.truthy nm)); [eauto|].
    destruct (store_put _ _ _) as [[[]|e] s']; [|eauto].
    destruct (JS.truthy_opt (body_sessionID data)); [|eauto].
    destruct (header_value_ok _); eauto.
  - unfold Testmode.callbackImpl, c_redirect. eauto.
  - rewrite signout_eq. eauto.
Qed.

(** The session middlewares catch as well: both hand control to [next]
    with a session value set, whatever the store does. *)
Lemma middlewares_reach_next :
  forall (S : Type) (c : Request) (o : Options S) (next : M S unit) (w : World S),
    (exists w', Testmode.sessionMiddlewareImpl c o next w = next w'
                /\ w_session w' <> None)
    /\ (exists w', Livemode.sessionMiddlewareImpl c o next w = next w'
                   /\ w_session w' <> None).
Proof.
  intros S c o next w. split.
  - rewrite middleware_eq. eexists; split; [reflexivity|]. discriminate.
  - unfold Livemode.sessionMiddlewareImpl, bind, try_catch, call_get,
      c_set_session. cbv zeta.
    destruct (req_getCookie c _) as [id|].
    + destruct (JS.truthy id).
      * destruct (store_get _ _ _) as [[[s|]|e] s'];
          (eexists; split; [reflexivity|discriminate]).
      * eexists; split; [reflexivity|discriminate].
    + eexists; split; [reflexivity|discriminate].
Qed.

(** ** C4: what sign-out does to the session store *)

(** C4, the claim as stated, fails in Live mode.  A signed-in user whose
    record is stored under [test-session-id] signs out: the store is not
    called and still holds the record; only the cookie is overwritten. *)
Lemma C4_counterexample :
  let user := session_of "test-session-id" "Test User" "test@example.com" in
  let w := fresh (<["test-session-id" := user]> ∅ : gmap string ValidSessionData) in
  let c := request_with_session_cookie "auth_session_cookie" "test-session-id" in
  let w' := snd (Livemode.signoutImpl c (livemodeOptions MapStore) w) in
  w_store w !! "test-session-id" = Some user
  /\ w_calls w' = []
  /\ w_store w' !! "test-session-id" = Some user.
Proof. repeat split; reflexivity. Qed.

(** The cookie options of Live sign-out. *)
Definition signout_cookie_options {S} (o : Options S) : CookieOptions :=
  mkCookieOptions true "Lax" "/" 0 (Livemode.domain_option (cookieDomain o)).

(** C4, amended.  In Simulated mode the record of the resolved session id
    is deleted best-effort on every sign-out: [delete] is called on it when
    the store has that method, and whether the call returns, rejects or is
    not there, the answer is the redirect to '/'; with the in-memory store
    the record is gone afterwards.  In Live mode sign-out does not delete
    the record: it never calls the session store and leaves its state as it
    was, and what it does is overwrite the session cookie with an empty
    value and Max-Age 0, where hono accepts the cookie. *)
Theorem C4_signout_store_effect :
  forall (S : Type) (c : Request) (o : Options S) (w : World S)
         (m : World (gmap string ValidSessionData)),
    let id := Scoping.resolved_sessionId (req_cookie_header c) in
    let name := JS.or_else (cookieName o) "auth_session_cookie" in
    (* Simulated *)
    (exists r,
        Testmode.signoutImpl c o w =
          (Returns r, world_with_headers (w_headers (snd (Testmode.signoutImpl c o w)))
                        (world_after_delete (sessionStore o) id w))
        /\ status r = 302
        /\ headers_get "Location" (headers r) = Some (Raw "/"))
    /\ w_store (snd (Testmode.signoutImpl c (testmodeOptions MapStore) m)) !! id = None
    (* Live *)
    /\ w_store (snd (Livemode.signoutImpl c o w)) = w_store w
    /\ w_calls (snd (Livemode.signoutImpl c o w)) = w_calls w
    /\ (setCookie_error name (signout_cookie_options o) = None ->
        exists r,
          Livemode.signoutImpl c o w = (Returns r, world_with_headers (headers r) w)
          /\ status r = 302
          /\ headers r =
               headers_set "Location" (Raw "/")
                 (headers_append "Set-Cookie"
                    (Cookie name "" (signout_cookie_options o)) (w_headers w))).
Proof.
  intros S c o w m id name.
  assert (L : Livemode.signoutImpl c o w =
              match setCookie_error name (signout_cookie_options o) with
              | Some e => (Throws e, w)
              | None =>
                  let h := headers_set "Location" (Raw "/")
                             (headers_append "Set-Cookie"
                                (Cookie name "" (signout_cookie_options o))
                                (w_headers w)) in
                  (Returns (mkResponse 302 EmptyBody h), world_with_headers h w)
              end).
  { unfold Livemode.signoutImpl, bind, setCookie, c_redirect, world_with_headers.
    cbv zeta. fold name. fold (signout_cookie_options o).
    destruct (setCookie_error name (signout_cookie_options o)); reflexivity. }
  repeat split.
  - rewrite signout_eq. cbv zeta. fold id.
    eexists. split; [reflexivity|]. split; [reflexivity|].
    apply headers_get_set.
  - rewrite signout_eq. cbv zeta. fold id. simpl.
    apply lookup_delete_eq.
  - rewrite L. destruct (setCookie_error _ _); reflexivity.
  - rewrite L. destruct (setCookie_error _ _); reflexivity.
  - intros H. rewrite L, H. cbv beta iota zeta.
    exists (mkResponse 302 EmptyBody
              (headers_set "Location" (Raw "/")
                 (headers_append "Set-Cookie"
                    (Cookie name "" (signout_cookie_options o)) (w_headers w)))).
    split; [reflexivity|]. split; reflexivity.
Qed.

Lemma C4_signout_store_effect_witness :
  let c := request_with_session_cookie "auth_session_cookie" "test-session-id" in
  let cleared :=
    [("Set-Cookie", Cookie "auth_session_cookie" ""
                      (mkCookieOptions true "Lax" "/" 0 None));
     ("Location", Raw "/")] in
  setCookie_error "auth_session_cookie" (mkCookieOptions true "Lax" "/" 0 None) = None
  /\ exists r,
       Livemode.signoutImpl c (livemodeOptions MapStore) (fresh ∅)
         = (Returns r, world_with_headers (headers r) (fresh ∅))
       /\ status r = 302 /\ headers r = cleared.
Proof.
  split; [reflexivity|].
  exact (proj2 (proj2 (proj2 (proj2
           (C4_signout_store_effect _
              (request_with_session_cookie "auth_session_cookie" "test-session-id")
              (livemodeOptions MapStore) (fresh ∅) (fresh ∅))))) eq_refl).
Defined.

(** ** C5 and C9: POST /test/signin *)

Lemma truthy_nonempty s : s <> "" -> JS.truthy s = true.
Proof. destruct s; [congruence | reflexivity]. Qed.

(** The [sessionID] of the body when it is supplied and not empty. *)
Definition custom_sessionID (data : TestSigninBody) : option string :=
  match body_sessionID data with
  | Some s => if String.eqb s "" then None else Some s
  | None => None
  end.

(** A field of the body that is absent or empty. *)
Definition absent_or_empty (field : option string) : Prop :=
  field = None \/ field = Some "".

(** A POST /test/signin request with the given body fields. *)
Definition test_signin_request (nm em : string) (sessionID : option string)
  : Request :=
  mkRequest None (fun _ => None)
            (Returns (JsonObject (mkTestSigninBody (Some em) (Some nm) sessionID)))
            (Throws "no body").

(** [testSigninImpl] on a JSON body with a name and an email that are not
    empty: [put] is called once; when it returns and no custom session id
    is supplied the answer is 200; when it returns and a custom id is
    supplied the answer is 200 with the scoping cookie if the id is a legal
    header value, and the 500 of the [catch] if it is not; when [put]
    throws the answer is that 500. *)
Lemma test_signin_eq {S} (c : Request) (o : Options S) (w : World S)
    (data : TestSigninBody) (nm em : string) :
  req_json c = Returns (JsonObject data) ->
  body_name data = Some nm -> body_email data = Some em ->
  nm <> "" -> em <> "" ->
  let sid := match custom_sessionID data with
             | Some s => s
             | None => "testmode-session"
             end in
  let session := mkValidSessionData sid nm em "test-credential" in
  let put := store_put (sessionStore o) session (w_store w) in
  let w1 := mkWorld (snd put) (w_calls w ++ [CallPut session])
                    (w_session w) (w_headers w) in
  let failed :=
    (Returns (mkResponse 500 (JsonBody (JError "Failed to store session"))
                (w_headers w)), w1) in
  Testmode.testSigninImpl c o w =
    match fst put with
    | Returns _ =>
        match custom_sessionID data with
        | Some s =>
            if header_value_ok s then
              let hs := headers_set "Set-Cookie"
                          (Raw ("testmode-session-id=" +:+ s
                                +:+ "; Path=/; SameSite=Lax"))
                          (w_headers w) in
              (Returns (mkResponse 200 (JsonBody (JSuccess session)) hs),
               world_with_headers hs w1)
            else failed
        | None =>
            (Returns (mkResponse 200 (JsonBody (JSuccess session)) (w_headers w)), w1)
        end
    | Throws _ => failed
    end.
Proof.
  intros Hj Hn He Nn Ne. cbv zeta.
  unfold Testmode.testSigninImpl, bind, try_catch, await, ret, throw.
  rewrite Hj, He, Hn.
  rewrite (truthy_nonempty _ Nn), (truthy_nonempty _ Ne). simpl negb. simpl orb.
  cbv iota beta.
  unfold custom_sessionID, JS.or_else, JS.truthy_opt, Testmode.TEST_SESSION_ID,
    call_put, c_header, c_json, world_with_headers.
  destruct (body_sessionID data) as [[|a s]|].
  - simpl. destruct (store_put _ _ _) as [[[]|e] s']; reflexivity.
  - change (String.eqb (String a s) "") with false.
    change (JS.truthy (String a s)) with true. cbv iota beta.
    destruct (scoping_header_value (String a s)) as [E1 E2].
    revert E1 E2. generalize (String a s). intros sid E1 E2.
    cbn [negb orb]. cbv beta iota.
    destruct (store_put _ _ _) as [[[]|e] s']; cbn [fst snd];
      [|reflexivity].
    rewrite E1, E2. destruct (header_value_ok sid); reflexivity.
  - simpl. destruct (store_put _ _ _) as [[[]|e] s']; reflexivity.
Qed.

(** [testSigninImpl] on a body that does not parse, and on a JSON value
    other than null whose email or name is absent or empty: 400, and the
    world is left as it was. *)
Lemma test_signin_validation :
  forall (S : Type) (c : Request) (o : Options S) (w : World S),
    (forall e, req_json c = Throws e ->
       Testmode.testSigninImpl c o w =
         (Returns (mkResponse 400 (JsonBody (JError "Invalid JSON body"))
                     (w_headers w)), w))
    /\ (forall data, req_json c = Returns (JsonObject data) ->
          absent_or_empty (body_email data) \/ absent_or_empty (body_name data) ->
          Testmode.testSigninImpl c o w =
            (Returns (mkResponse 400 (JsonBody (JError "email and name are required"))
                        (w_headers w)), w)).
Proof.
  intros S c o w. split.
  - intros e H. unfold Testmode.testSigninImpl, bind, try_catch, await, ret, c_json.
    now rewrite H.
  - intros data H Hm.
    unfold Testmode.testSigninImpl, bind, try_catch, await, ret, c_json.
    rewrite H. unfold absent_or_empty in Hm.
    destruct Hm as [[E|E]|[E|E]]; rewrite E;
      destruct (body_email data) as [[|? ?]|];
      destruct (body_name data) as [[|? ?]|];
      try reflexivity; discriminate.
Qed.

(** A session id with a line feed in it: [evil], LF, [id]. *)
Definition line_feed_id : string :=
  "evil" +:+ String (ascii_of_nat 10) "id".

(** C5 at its failing input.  POST /test/signin with name, email and the
    sessionID [evil<LF>id]: [put] returns and the record is stored under
    that id, then [c.header] rejects the Set-Cookie value inside the same
    [try], and the [catch] answers 500 'Failed to store session' with no
    Set-Cookie header.  For the sessionID [custom-session-123] the same
    code answers 200 with the scoping cookie. *)
Theorem C5_illegal_session_id_answers_500 :
  let o := testmodeOptions MapStore in
  let record id := mkValidSessionData id "John Doe" "john@example.com"
                                      "test-credential" in
  header_value_ok line_feed_id = false
  /\ Testmode.testSigninImpl
       (test_signin_request "John Doe" "john@example.com" (Some line_feed_id))
       o (fresh ∅)
     = (Returns (mkResponse 500 (JsonBody (JError "Failed to store session")) []),
        mkWorld (<[line_feed_id := record line_feed_id]> ∅)
                [CallPut (record line_feed_id)] None [])
  /\ Testmode.testSigninImpl
       (test_signin_request "John Doe" "john@example.com" (Some "custom-session-123"))
       o (fresh ∅)
     = (Returns (mkResponse 200 (JsonBody (JSuccess (record "custom-session-123")))
                   [("Set-Cookie",
                     Raw "testmode-session-id=custom-session-123; Path=/; SameSite=Lax")]),
        mkWorld (<["custom-session-123" := record "custom-session-123"]> ∅)
                [CallPut (record "custom-session-123")] None
                [("Set-Cookie",
                  Raw "testmode-session-id=custom-session-123; Path=/; SameSite=Lax")]).
Proof. repeat split; reflexivity. Qed.

(** C9 at its failing input.  POST /test/signin with the body [null]: the
    body parses, then reading [data.email] outside the [try] throws a
    TypeError, which the route hands on to the host; no 400 is answered.
    A body that does not parse and an object without email are answered
    400 by the same code. *)
Theorem C9_null_body_throws :
  let o := testmodeOptions MapStore in
  let request body := mkRequest None (fun _ => None) body (Throws "no body") in
  Testmode.testSigninImpl (request (Returns JsonNull)) o (fresh ∅)
    = (Throws "TypeError: Cannot read properties of null (reading 'email')", fresh ∅)
  /\ route_test_signin samplePlatform (request (Returns JsonNull)) o (fresh ∅)
     = (Throws "TypeError: Cannot read properties of null (reading 'email')", fresh ∅)
  /\ Testmode.testSigninImpl (request (Throws "Unexpected token i in JSON")) o (fresh ∅)
     = (Returns (mkResponse 400 (JsonBody (JError "Invalid JSON body")) []), fresh ∅)
  /\ Testmode.testSigninImpl
       (request (Returns (JsonObject (mkTestSigninBody None (Some "John Doe") None))))
       o (fresh ∅)
     = (Returns (mkResponse 400 (JsonBody (JError "email and name are required")) []),
        fresh ∅).
Proof. repeat split; reflexivity. Qed.

(** ** C6: a credential that fails verification *)

(** The token-info call fails: [fetch] throws, or the response is not 2xx. *)
Definition verification_fails (P : Platform) (credential : string) : Prop :=
  let url := "https://oauth2.googleapis.com/tokeninfo?id_token=" +:+ credential in
  (exists e, fetch P url = Throws e)
  \/ (exists r, fetch P url = Returns r
                /\ (fr_status r < 200 \/ 299 < fr_status r)).

(** C6.  In Live mode, for a callback whose form body parsed and whose
    credential fails verification, the response is the text
    'Invalid Google Sign-In' with status 200 and the world is left as it
    was: no call reached the store, [put] in particular, and the store
    state is unchanged. *)
Theorem C6_callback_verification_failure :
  forall (S : Type) (P : Platform) (c : Request) (o : Options S) (w : World S)
         (data : SigninCallbackData),
    req_parseBody c = Returns data ->
    verification_fails P (cb_credential data) ->
    Livemode.callbackImpl P c o w =
      (Returns (mkResponse 200 (TextBody "Invalid Google Sign-In") (w_headers w)), w)
    /\ w_store (snd (Livemode.callbackImpl P c o w)) = w_store w
    /\ w_calls (snd (Livemode.callbackImpl P c o w)) = w_calls w.
Proof.
  intros S P c o w data Hb Hf.
  assert (E : Livemode.callbackImpl P c o w =
              (Returns (mkResponse 200 (TextBody "Invalid Google Sign-In")
                          (w_headers w)), w)).
  { unfold Livemode.callbackImpl, Livemode.verifyCredential, bind, try_catch,
      await, ret, c_text.
    cbv zeta. rewrite Hb.
    destruct Hf as [[e Hf]|[r [Hf Hs]]]; rewrite Hf; [reflexivity|].
    assert (Hok : fr_ok r = false).
    { unfold fr_ok. apply andb_false_iff. destruct Hs as [Hs|Hs].
      - left. apply Z.leb_gt. exact Hs.
      - right. apply Z.leb_gt. exact Hs. }
    rewrite Hok. reflexivity. }
  rewrite E. auto.
Qed.

(** A platform whose token-info endpoint answers 400. *)
Definition refusingPlatform : Platform :=
  mkPlatform (fun _ => Returns (mkFetchResponse 400 (Throws "Unexpected end of JSON input")))
             "3f0c2a6e-0000-4000-8000-000000000001" "1700000000000"
             (fun clientId loginUri => "g_id_onload " +:+ clientId +:+ " " +:+ loginUri).

Lemma C6_callback_verification_failure_witness :
  let c := mkRequest None (fun _ => None) (Throws "no body")
             (Returns (mkSigninCallbackData "test-client-id" "invalid-token" "")) in
  Livemode.callbackImpl refusingPlatform c (livemodeOptions MapStore) (fresh ∅) =
    (Returns (mkResponse 200 (TextBody "Invalid Google Sign-In") []), fresh ∅).
Proof.
  refine (proj1 (C6_callback_verification_failure _ refusingPlatform
            (mkRequest None (fun _ => None) (Throws "no body")
               (Returns (mkSigninCallbackData "test-client-id" "invalid-token" "")))
            (livemodeOptions MapStore) (fresh ∅) _ eq_refl _)).
  right. eexists. split; [reflexivity|]. right. simpl. lia.
Defined.

(** ** C7: session resolution of the Live strategy *)

(** The case analysis of the claim: absent cookie, no record, store
    exception, record. *)
Definition spec_live_session {S} (st : SessionStore S) (cookie : option string)
    (s : S) : SessionData :=
  match cookie with
  | None => Invalid (Some "No session cookie")
  | Some id => session_of_get "Session not found" (fst (store_get st id s))
  end.

(** The session value the Live middleware leaves for [next]. *)
Definition live_session {S} (c : Request) (o : Options S) (w : World S)
  : option SessionData :=
  w_session (snd (Livemode.sessionMiddlewareImpl c o (ret tt) w)).

(** C7, the claim as stated, fails.  A request whose session cookie is
    present with an empty value, [auth_session_cookie=], is answered with
    'No session cookie' and the store is not consulted; the case analysis of
    the claim looks the store up and gives 'Session not found'. *)
Lemma C7_counterexample :
  let c := request_with_session_cookie "auth_session_cookie" "" in
  let o := livemodeOptions MapStore in
  let w := fresh (∅ : gmap string ValidSessionData) in
  req_getCookie c "auth_session_cookie" = Some ""
  /\ live_session c o w = Some (Invalid (Some "No session cookie"))
  /\ w_calls (snd (Livemode.sessionMiddlewareImpl c o (ret tt) w)) = []
  /\ spec_live_session MapStore (req_getCookie c "auth_session_cookie") (w_store w)
     = Invalid (Some "Session not found").
Proof. repeat split; reflexivity. Qed.

(** The session cookie as the Live strategy reads it: present and not
    empty. *)
Definition live_cookie {S} (c : Request) (o : Options S) : option string :=
  match req_getCookie c (JS.or_else (cookieName o) "auth_session_cookie") with
  | Some id => if String.eqb id "" then None else Some id
  | None => None
  end.

(** C7, amended.  In Live mode resolve-session hands [next] a world whose
    session value is: Invalid 'No session cookie' when the configured
    cookie is absent or empty, the store not being called; otherwise the
    outcome of one store lookup of the cookie's value, namely Invalid
    'Session not found' when there is no record, Invalid 'Session store
    error' when the lookup throws, and the record itself when there is one.
    The value does not depend on the session value set before, and
    repeating the call yields the same session value whenever the lookup
    left the store state as it was. *)
Theorem C7_live_resolve_session :
  forall (S : Type) (c : Request) (o : Options S) (w : World S) (next : M S unit),
    let st := sessionStore o in
    let w1 :=
      match live_cookie c o with
      | None => world_with_session (Invalid (Some "No session cookie")) w
      | Some id => world_after_lookup st id "Session not found" w
      end in
    Livemode.sessionMiddlewareImpl c o next w = next w1
    /\ (live_cookie c o = None ->
        live_session c o w1 = Some (Invalid (Some "No session cookie"))
        /\ live_session c o w1 = live_session c o w)
    /\ (w_store w1 = w_store w -> live_session c o w1 = live_session c o w).
Proof.
  intros S c o w next st w1.
  assert (E : forall (nx : M S unit) (w0 : World S),
            Livemode.sessionMiddlewareImpl c o nx w0 =
            nx match live_cookie c o with
               | None => world_with_session (Invalid (Some "No session cookie")) w0
               | Some id => world_after_lookup st id "Session not found" w0
               end).
  { intros nx w0.
    unfold Livemode.sessionMiddlewareImpl, live_cookie, bind, try_catch,
      call_get, c_set_session, world_with_session, world_after_lookup,
      session_of_get. cbv zeta. fold st.
    destruct (req_getCookie c _) as [[|a id]|]; simpl; try reflexivity.
    destruct (store_get st (String a id) (w_store w0)) as [[[s|]|e] s'];
      reflexivity. }
  split; [apply E|].
  unfold live_session. rewrite !E. subst w1. split.
  - intros H. rewrite H. split; reflexivity.
  - destruct (live_cookie c o) as [id|]; [|reflexivity].
    unfold ret, world_after_lookup. simpl. intros H. now rewrite H.
Qed.

Lemma C7_live_resolve_session_witness :
  let user := session_of "test-session-id" "Test User" "test@example.com" in
  let w := fresh (<["test-session-id" := user]> ∅ : gmap string ValidSessionData) in
  let c := request_with_session_cookie "auth_session_cookie" "test-session-id" in
  let o := livemodeOptions MapStore in
  let w1 := world_after_lookup MapStore "test-session-id" "Session not found" w in
  (w_store w1 = w_store w /\ live_session c o w1 = live_session c o w)
  /\ live_cookie (request_with_cookie None) o = None
  /\ live_session (request_with_cookie None) o
       (world_with_session (Invalid (Some "No session cookie")) w)
     = Some (Invalid (Some "No session cookie")).
Proof.
  split; [split; [reflexivity|]|split; [reflexivity|]].
  - exact (proj2 (proj2 (C7_live_resolve_session _
             (request_with_session_cookie "auth_session_cookie" "test-session-id")
             (livemodeOptions MapStore)
             (fresh (<["test-session-id" :=
                        session_of "test-session-id" "Test User" "test@example.com"]> ∅))
             (ret tt))) eq_refl).
  - exact (proj1 (proj1 (proj2 (C7_live_resolve_session _
             (request_with_cookie None) (livemodeOptions MapStore)
             (fresh (<["test-session-id" :=
                        session_of "test-session-id" "Test User" "test@example.com"]> ∅))
             (ret tt))) eq_refl)).
Defined.

(** ** C8: sign-out of the Simulated strategy *)

(** C8 at its failing input.  A request signs out the custom session
    [signout-session-789] against a store whose [delete] rejects: the
    response is the redirect to '/' but carries no Set-Cookie header, the
    clearing of the scoping cookie being skipped with the rest of the [try]
    block; against the same store with a [delete] that succeeds the scoping
    cookie is cleared. *)
Theorem C8_rejected_delete_skips_cookie_clearing :
  let c := request_with_cookie (Some "testmode-session-id=signout-session-789") in
  let user := session_of "signout-session-789" "Signout User" "signout@example.com" in
  let w := fresh (<["signout-session-789" := user]> ∅ : gmap string ValidSessionData) in
  Scoping.resolved_sessionId (req_cookie_header c) = "signout-session-789"
  /\ Testmode.signoutImpl c (testmodeOptions (MapStoreRejectingDelete "KV unavailable")) w
     = (Returns (mkResponse 302 EmptyBody [("Location", Raw "/")]),
        mkWorld (w_store w) [CallDelete "signout-session-789"] None
                [("Location", Raw "/")])
  /\ Testmode.signoutImpl c (testmodeOptions MapStore) w
     = (Returns (mkResponse 302 EmptyBody
                   [("Set-Cookie",
                     Raw "testmode-session-id=; Path=/; SameSite=Lax; Max-Age=0");
                    ("Location", Raw "/")]),
        mkWorld ∅ [CallDelete "signout-session-789"] None
                [("Set-Cookie",
                  Raw "testmode-session-id=; Path=/; SameSite=Lax; Max-Age=0");
                 ("Location", Raw "/")]).
Proof. repeat split; reflexivity. Qed.

(** What holds of Simulated sign-out for every request and store: the
    answer is the redirect to '/'; [delete] is called on the resolved id
    when the store has it; the scoping cookie is cleared exactly when the
    resolved id is not the default one and [delete] did not reject. *)
Lemma testmode_signout_outcome :
  forall (S : Type) (c : Request) (o : Options S) (w : World S),
    let id := Scoping.resolved_sessionId (req_cookie_header c) in
    let cleared :=
      negb (delete_throws (sessionStore o) id w)
      && negb (String.eqb id "testmode-session") in
    let h :=
      if cleared
      then headers_set "Set-Cookie"
             (Raw "testmode-session-id=; Path=/; SameSite=Lax; Max-Age=0")
             (w_headers w)
      else w_headers w in
    Testmode.signoutImpl c o w =
      (Returns (mkResponse 302 EmptyBody (headers_set "Location" (Raw "/") h)),
       world_with_headers (headers_set "Location" (Raw "/") h)
         (world_after_delete (sessionStore o) id w)).
Proof. intros. apply signout_eq. Qed.

(** ** Lemmas for the round trip of the scoping cookie *)

Section Roundtrip_lemmas.
Import JS Scoping.














End Roundtrip_lemmas.

(** ** C10: the scoping cookie and the key of the lookup *)

(** The follow-up request of a client that sends the scoping cookie back:
    its Cookie header is the pair [testmode-session-id=<id>]. *)
Definition echo_request (id : string) : Request :=
  request_with_cookie (Some (Scoping.cookiePrefix +:+ id)).





(** * Further properties of the strategies *)

(** ** Live strategy: verification, callback and render-signin *)

Definition tokeninfo_url (credential : string) : string :=
  "https://oauth2.googleapis.com/tokeninfo?id_token=" +:+ credential.

(** A call made on the store that only reads. *)
Definition is_get (call : StoreCall) : Prop :=
  match call with CallGet _ => True | _ => False end.

Section Livemode_lemmas.
Context {S : Type}.

Lemma fr_ok_iff (r : FetchResponse) :
  fr_ok r = true <-> 200 <= fr_status r <= 299.
Proof.
  unfold fr_ok. rewrite andb_true_iff, !Z.leb_le. tauto.
Qed.

Lemma live_middleware_eq (c : Request) (o : Options S) (next : M S unit)
    (w : World S) :
  Livemode.sessionMiddlewareImpl c o next w =
  next match live_cookie c o with
       | None => world_with_session (Invalid (Some "No session cookie")) w
       | Some id => world_after_lookup (sessionStore o) id "Session not found" w
       end.
Proof.
  unfold Livemode.sessionMiddlewareImpl, live_cookie, bind, try_catch,
    call_get, c_set_session, world_with_session, world_after_lookup,
    session_of_get. cbv zeta.
  destruct (req_getCookie c _) as [[|a id]|]; simpl; try reflexivity.
  destruct (store_get (sessionStore o) (String a id) (w_store w))
    as [[[s|]|e] s']; reflexivity.
Qed.

(** The page render-signin shows when it does not redirect. *)
Definition live_signin_page (P : Platform) (o : Options S) : string :=
  match renderSignInPage o with
  | Some render =>
      match render (clientId o) (callbackUrl o) with
      | Some p => p
      | None => ""
      end
  | None => GoogleSignInButton P (clientId o) (callbackUrl o)
  end.

Lemma live_signin_eq (P : Platform) (c : Request) (o : Options S) (w : World S) :
  Livemode.signinImpl P c o w =
  match live_cookie c o with
  | None => (Returns (mkResponse 200 (HtmlBody (live_signin_page P o)) (w_headers w)), w)
  | Some id =>
      let w1 := mkWorld (snd (store_get (sessionStore o) id (w_store w)))
                        (w_calls w ++ [CallGet id]) (w_session w) (w_headers w) in
      match fst (store_get (sessionStore o) id (w_store w)) with
      | Returns (Some _) =>
          (Returns (mkResponse 302 EmptyBody
                      (headers_set "Location" (Raw "/") (w_headers w))),
           world_with_headers (headers_set "Location" (Raw "/") (w_headers w)) w1)
      | Returns None =>
          (Returns (mkResponse 200 (HtmlBody (live_signin_page P o)) (w_headers w)), w1)
      | Throws e => (Throws e, w1)
      end
  end.
Proof.
  unfold Livemode.signinImpl, live_cookie, live_signin_page, bind, call_get,
    ret, c_redirect, c_html, world_with_headers. cbv zeta.
  destruct (req_getCookie c _) as [[|a id]|]; simpl.
  - destruct (renderSignInPage o); reflexivity.
  - destruct (store_get (sessionStore o) (String a id) (w_store w))
      as [[[s|]|e] s']; simpl; try reflexivity.
    destruct (renderSignInPage o); reflexivity.
  - destruct (renderSignInPage o); reflexivity.
Qed.

Lemma live_callback_eq (P : Platform) (c : Request) (o : Options S) (w : World S)
    (data : SigninCallbackData) (resp : FetchResponse) (ti : TokenInfo) :
  req_parseBody c = Returns data ->
  fetch P (tokeninfo_url (cb_credential data)) = Returns resp ->
  200 <= fr_status resp <= 299 ->
  fr_json resp = Returns (Some ti) ->
  let session := mkValidSessionData (randomUUID P) (ti_name ti) (ti_email ti)
                                    (cb_credential data) in
  let put := store_put (sessionStore o) session (w_store w) in
  let w1 := mkWorld (snd put) (w_calls w ++ [CallPut session])
                    (w_session w) (w_headers w) in
  let name := JS.or_else (cookieName o) "auth_session_cookie" in
  let opt := mkCookieOptions true "Lax" "/" (Livemode.SESSION_DURATION o)
                             (Livemode.domain_option (cookieDomain o)) in
  let h := headers_set "Location" (Raw "/")
             (headers_append "Set-Cookie" (Cookie name (randomUUID P) opt)
                             (w_headers w)) in
  Livemode.callbackImpl P c o w =
    match fst put with
    | Returns _ =>
        match setCookie_error name opt with
        | None => (Returns (mkResponse 302 EmptyBody h), world_with_headers h w1)
        | Some e => (Throws e, w1)
        end
    | Throws e => (Throws e, w1)
    end.
Proof.
  intros Hb Hf Hs Hj. cbv zeta.
  unfold Livemode.callbackImpl, Livemode.verifyCredential, bind, try_catch,
    await, ret, tokeninfo_url in *. cbv zeta.
  rewrite Hb, Hf. apply fr_ok_iff in Hs. rewrite Hs. simpl. rewrite Hj.
  unfold call_put, setCookie, c_redirect, world_with_headers.
  destruct (store_put _ _ _) as [[[]|e] s']; [|reflexivity].
  cbn [fst snd w_store w_calls w_session w_headers sessionId].
  destruct (setCookie_error _ _); reflexivity.
Qed.

Lemma setCookie_error_over_limit (cname : string) (opt : CookieOptions) :
  34560000 < maxAge opt -> exists e, setCookie_error cname opt = Some e.
Proof.
  intros H. unfold setCookie_error.
  destruct (JS.startsWith cname "__Secure-"); [eauto|].
  destruct (JS.startsWith cname "__Host-"); [eauto|].
  assert (E : (0 <=? maxAge opt) && (34560000 <? maxAge opt) = true).
  { apply andb_true_iff. split; [apply Z.leb_le | apply Z.ltb_lt]; lia. }
  rewrite E. eauto.
Qed.

End Livemode_lemmas.

(** [verifyCredential] never throws and leaves the world alone; it yields
    token info exactly when [fetch] settles to a 2xx response whose JSON
    body settles to that token info. *)
Theorem verifyCredential_accepts_iff :
  forall (S : Type) (P : Platform) (credential : string) (w : World S),
    exists r,
      Livemode.verifyCredential P credential w = (Returns r, w)
      /\ forall ti,
           r = Some ti <->
           exists resp,
             fetch P (tokeninfo_url credential) = Returns resp
             /\ 200 <= fr_status resp <= 299
             /\ fr_json resp = Returns (Some ti).
Proof.
  intros S P credential w.
  unfold Livemode.verifyCredential, bind, try_catch, await, ret, tokeninfo_url.
  destruct (fetch P _) as [resp|e].
  - destruct (fr_ok resp) eqn:Hok; simpl.
    + apply fr_ok_iff in Hok.
      destruct (fr_json resp) as [j|e] eqn:Hj.
      * exists j. split; [reflexivity|]. intros ti. split.
        -- intros ->. exists resp. auto.
        -- intros (resp' & E & _ & J). injection E as <-. congruence.
      * exists None. split; [reflexivity|]. intros ti. split; [discriminate|].
        intros (resp' & E & _ & J). injection E as <-. congruence.
    + exists None. split; [reflexivity|]. intros ti. split; [discriminate|].
      intros (resp' & E & R & _). injection E as <-.
      apply fr_ok_iff in R. congruence.
  - exists None. split; [reflexivity|]. intros ti. split; [discriminate|].
    intros (resp' & E & _). discriminate.
Qed.

Lemma verifyCredential_accepts_iff_witness :
  exists r,
    Livemode.verifyCredential acceptingPlatform "valid-token"
      (fresh (∅ : gmap string ValidSessionData)) = (Returns r, fresh ∅)
    /\ exists ti, r = Some ti /\ ti_email ti = "test@example.com".
Proof.
  destruct (verifyCredential_accepts_iff _ acceptingPlatform "valid-token"
              (fresh (∅ : gmap string ValidSessionData))) as (r & E & H).
  exists r. split; [exact E|].
  eexists. split.
  - apply (proj2 (H _)). eexists. split; [reflexivity|].
    split; [simpl; lia | reflexivity].
  - reflexivity.
Defined.

(** A verified callback: the record carries the fresh UUID as session id,
    the name and email of the token and the credential posted;
    [sessionStore.put] is called once, with it.  When [put] returns and
    hono accepts the cookie, the session cookie is appended with the UUID as
    value, HttpOnly, SameSite=Lax, Path=/, the configured duration and
    domain, and the answer is the redirect to '/'.  When [put] returns and
    hono rejects the cookie (a cookie name with the prefix __Secure- or
    __Host-, a duration above 400 days, a name or domain that is no legal
    header value), the callback throws after the record was stored.  When
    [put] throws, the callback throws on and no cookie is set. *)
Theorem live_callback_success :
  forall (S : Type) (P : Platform) (c : Request) (o : Options S) (w : World S)
         (data : SigninCallbackData) (resp : FetchResponse) (ti : TokenInfo),
    req_parseBody c = Returns data ->
    fetch P (tokeninfo_url (cb_credential data)) = Returns resp ->
    200 <= fr_status resp <= 299 ->
    fr_json resp = Returns (Some ti) ->
    let session := mkValidSessionData (randomUUID P) (ti_name ti) (ti_email ti)
                                      (cb_credential data) in
    let put := store_put (sessionStore o) session (w_store w) in
    let w1 := mkWorld (snd put) (w_calls w ++ [CallPut session])
                      (w_session w) (w_headers w) in
    let name := JS.or_else (cookieName o) "auth_session_cookie" in
    let opt := mkCookieOptions true "Lax" "/" (Livemode.SESSION_DURATION o)
                               (Livemode.domain_option (cookieDomain o)) in
    let h := headers_set "Location" (Raw "/")
               (headers_append "Set-Cookie" (Cookie name (randomUUID P) opt)
                               (w_headers w)) in
    Livemode.callbackImpl P c o w =
      match fst put with
      | Returns _ =>
          match setCookie_error name opt with
          | None => (Returns (mkResponse 302 EmptyBody h), world_with_headers h w1)
          | Some e => (Throws e, w1)
          end
      | Throws e => (Throws e, w1)
      end.
Proof.
  intros S P c o w data resp ti Hb Hf Hs Hj.
  exact (live_callback_eq P c o w data resp ti Hb Hf Hs Hj).
Qed.

Lemma live_callback_success_witness :
  let c := mkRequest None (fun _ => None) (Throws "no body")
             (Returns (mkSigninCallbackData "test-client-id" "valid-token" "")) in
  let uuid := "3f0c2a6e-0000-4000-8000-000000000001" in
  let session := mkValidSessionData uuid "Test User" "test@example.com"
                                    "valid-token" in
  let h := [("Set-Cookie",
             Cookie "auth_session_cookie" uuid
                    (mkCookieOptions true "Lax" "/" 31536000 None));
            ("Location", Raw "/")] in
  Livemode.callbackImpl acceptingPlatform c (livemodeOptions MapStore) (fresh ∅)
  = (Returns (mkResponse 302 EmptyBody h),
     mkWorld (<[uuid := session]> ∅) [CallPut session] None h).
Proof.
  cbv zeta.
  rewrite (live_callback_success _ acceptingPlatform
             (mkRequest None (fun _ => None) (Throws "no body")
                (Returns (mkSigninCallbackData "test-client-id" "valid-token" "")))
             (livemodeOptions MapStore) (fresh ∅) _ _ _
             eq_refl eq_refl ltac:(simpl; lia) eq_refl).
  reflexivity.
Defined.

(** The duration of the session cookie a verified callback sets.  When
    [options.sessionDurationSeconds] is not configured or is 0, the cookie
    of the redirect carries Max-Age 31536000, one year.  When it is
    configured above 34560000, 400 days, no cookie is set: the callback
    throws after [put] has stored the record. *)
Theorem live_cookie_duration :
  forall (S : Type) (P : Platform) (c : Request) (o : Options S) (w : World S)
         (data : SigninCallbackData) (resp : FetchResponse) (ti : TokenInfo),
    req_parseBody c = Returns data ->
    fetch P (tokeninfo_url (cb_credential data)) = Returns resp ->
    200 <= fr_status resp <= 299 ->
    fr_json resp = Returns (Some ti) ->
    let session := mkValidSessionData (randomUUID P) (ti_name ti) (ti_email ti)
                                      (cb_credential data) in
    let put := store_put (sessionStore o) session (w_store w) in
    let name := JS.or_else (cookieName o) "auth_session_cookie" in
    let year := mkCookieOptions true "Lax" "/" 31536000
                                (Livemode.domain_option (cookieDomain o)) in
    fst put = Returns tt ->
    (sessionDurationSeconds o = None \/ sessionDurationSeconds o = Some 0 ->
     setCookie_error name year = None ->
     fst (Livemode.callbackImpl P c o w) =
       Returns (mkResponse 302 EmptyBody
                  (headers_set "Location" (Raw "/")
                     (headers_append "Set-Cookie"
                        (Cookie name (randomUUID P) year) (w_headers w)))))
    /\ (forall n, sessionDurationSeconds o = Some n -> 34560000 < n ->
          exists e,
            Livemode.callbackImpl P c o w =
              (Throws e, mkWorld (snd put) (w_calls w ++ [CallPut session])
                                 (w_session w) (w_headers w))).
Proof.
  intros S P c o w data resp ti Hb Hf Hs Hj session put name year Hput.
  pose proof (live_callback_eq P c o w data resp ti Hb Hf Hs Hj) as E.
  cbv zeta in E. fold session in E. fold put in E. fold name in E.
  rewrite Hput in E. split.
  - intros Hd Hok.
    assert (D : Livemode.SESSION_DURATION o = 31536000)
      by (unfold Livemode.SESSION_DURATION; destruct Hd as [H|H]; now rewrite H).
    rewrite D in E. fold year in E. rewrite Hok in E. now rewrite E.
  - intros n Hn Hlim.
    assert (D : Livemode.SESSION_DURATION o = n).
    { unfold Livemode.SESSION_DURATION. rewrite Hn.
      destruct (Z.eqb_spec n 0); [lia | reflexivity]. }
    rewrite D in E.
    destruct (setCookie_error_over_limit name
                (mkCookieOptions true "Lax" "/" n
                   (Livemode.domain_option (cookieDomain o))) Hlim) as [e He].
    rewrite He in E. exists e. exact E.
Qed.

Lemma live_cookie_duration_witness :
  let c := mkRequest None (fun _ => None) (Throws "no body")
             (Returns (mkSigninCallbackData "test-client-id" "valid-token" "")) in
  let uuid := "3f0c2a6e-0000-4000-8000-000000000001" in
  let session := mkValidSessionData uuid "Test User" "test@example.com"
                                    "valid-token" in
  let o := mkOptions _ "test-client-id" "http://localhost:3000/auth/callback"
                     MapStore None None (Some 40000000) None livemode in
  exists e,
    Livemode.callbackImpl acceptingPlatform c o (fresh ∅)
    = (Throws e, mkWorld (<[uuid := session]> ∅) [CallPut session] None []).
Proof.
  cbv zeta.
  exact (proj2 (live_cookie_duration _ acceptingPlatform
           (mkRequest None (fun _ => None) (Throws "no body")
              (Returns (mkSigninCallbackData "test-client-id" "valid-token" "")))
           (mkOptions _ "test-client-id" "http://localhost:3000/auth/callback"
              MapStore None None (Some 40000000) None livemode)
           (fresh ∅) _ _ _ eq_refl eq_refl ltac:(simpl; lia) eq_refl eq_refl)
           40000000 eq_refl ltac:(lia)).
Defined.

(** Callback, then the session: once a verified callback has stored its
    record, a request that carries the session cookie the callback set is
    resolved by the middleware to that record, and render-signin answers it
    with the redirect to '/', for every store that returns on [get] what was
    [put]. *)
Theorem live_callback_then_session :
  forall (S : Type) (P : Platform) (c c2 : Request) (o : Options S)
         (w w2 : World S) (next : M S unit)
         (data : SigninCallbackData) (resp : FetchResponse) (ti : TokenInfo)
         (s1 s2 : S),
    req_parseBody c = Returns data ->
    fetch P (tokeninfo_url (cb_credential data)) = Returns resp ->
    200 <= fr_status resp <= 299 ->
    fr_json resp = Returns (Some ti) ->
    let session := mkValidSessionData (randomUUID P) (ti_name ti) (ti_email ti)
                                      (cb_credential data) in
    store_put (sessionStore o) session (w_store w) = (Returns tt, s1) ->
    store_get (sessionStore o) (randomUUID P) s1 = (Returns (Some session), s2) ->
    randomUUID P <> "" ->
    req_getCookie c2 (JS.or_else (cookieName o) "auth_session_cookie")
      = Some (randomUUID P) ->
    w_store w2 = s1 ->
    w_store (snd (Livemode.callbackImpl P c o w)) = s1
    /\ Livemode.sessionMiddlewareImpl c2 o next w2 =
         next (mkWorld s2 (w_calls w2 ++ [CallGet (randomUUID P)])
                       (Some (Valid session)) (w_headers w2))
    /\ exists r, fst (Livemode.signinImpl P c2 o w2) = Returns r
                 /\ status r = 302
                 /\ headers_get "Location" (headers r) = Some (Raw "/").
Proof.
  intros S P c c2 o w w2 next data resp ti s1 s2 Hb Hf Hs Hj session
         Hput Hget Hne Hc Hw.
  assert (Hlc : live_cookie c2 o = Some (randomUUID P)).
  { unfold live_cookie. rewrite Hc.
    destruct (randomUUID P); [contradiction | reflexivity]. }
  repeat split.
  - rewrite (live_callback_eq P c o w data resp ti Hb Hf Hs Hj).
    cbv zeta. fold session. rewrite Hput. cbn [fst snd].
    destruct (setCookie_error _ _); reflexivity.
  - rewrite live_middleware_eq, Hlc. unfold world_after_lookup.
    rewrite Hw, Hget. reflexivity.
  - rewrite live_signin_eq, Hlc. cbv zeta. rewrite Hw, Hget. simpl.
    eexists. split; [reflexivity|]. split; [reflexivity|].
    apply headers_get_set.
Qed.

Lemma live_callback_then_session_witness :
  let c := mkRequest None (fun _ => None) (Throws "no body")
             (Returns (mkSigninCallbackData "test-client-id" "valid-token" "")) in
  let uuid := "3f0c2a6e-0000-4000-8000-000000000001" in
  let session := mkValidSessionData uuid "Test User" "test@example.com"
                                    "valid-token" in
  let o := livemodeOptions MapStore in
  let s1 := w_store (snd (Livemode.callbackImpl acceptingPlatform c o (fresh ∅))) in
  Livemode.sessionMiddlewareImpl
    (request_with_session_cookie "auth_session_cookie" uuid) o (ret tt) (fresh s1)
  = (Returns tt, mkWorld s1 [CallGet uuid] (Some (Valid session)) []).
Proof.
  cbv zeta.
  refine (proj1 (proj2 (live_callback_then_session _ acceptingPlatform
            (mkRequest None (fun _ => None) (Throws "no body")
               (Returns (mkSigninCallbackData "test-client-id" "valid-token" "")))
            (request_with_session_cookie "auth_session_cookie"
               "3f0c2a6e-0000-4000-8000-000000000001")
            (livemodeOptions MapStore) (fresh ∅) (fresh _) (ret tt) _ _ _ _ _
            eq_refl eq_refl _ eq_refl eq_refl eq_refl _ eq_refl eq_refl)));
    [simpl; lia | discriminate].
Defined.

(** Render-signin of the Live strategy, case by case: without a usable
    session cookie the store is not called and the sign-in page is shown;
    with one, the store is looked up once, a record leads to the redirect
    to '/', no record to the sign-in page, and a rejected lookup is thrown
    on.  A custom renderer that yields null gives an empty page. *)
Theorem live_signin_cases :
  forall (S : Type) (P : Platform) (c : Request) (o : Options S) (w : World S),
    (live_cookie c o = None ->
     Livemode.signinImpl P c o w =
       (Returns (mkResponse 200 (HtmlBody (live_signin_page P o)) (w_headers w)), w))
    /\ (forall id v s', live_cookie c o = Some id ->
          store_get (sessionStore o) id (w_store w) = (Returns (Some v), s') ->
          exists r w', Livemode.signinImpl P c o w = (Returns r, w')
                       /\ status r = 302
                       /\ headers_get "Location" (headers r) = Some (Raw "/")
                       /\ w_calls w' = w_calls w ++ [CallGet id])
    /\ (forall id s', live_cookie c o = Some id ->
          store_get (sessionStore o) id (w_store w) = (Returns None, s') ->
          Livemode.signinImpl P c o w =
            (Returns (mkResponse 200 (HtmlBody (live_signin_page P o)) (w_headers w)),
             mkWorld s' (w_calls w ++ [CallGet id]) (w_session w) (w_headers w)))
    /\ (forall render, renderSignInPage o = Some render ->
          render (clientId o) (callbackUrl o) = None ->
          live_signin_page P o = "").
Proof.
  intros S P c o w. repeat split.
  - intros H. rewrite live_signin_eq, H. reflexivity.
  - intros id v s' H G. rewrite live_signin_eq, H. cbv zeta. rewrite G. simpl.
    do 2 eexists. split; [reflexivity|]. split; [reflexivity|].
    split; [apply headers_get_set | reflexivity].
  - intros id s' H G. rewrite live_signin_eq, H. cbv zeta. rewrite G. reflexivity.
  - intros render H G. unfold live_signin_page. now rewrite H, G.
Qed.

Lemma live_signin_cases_witness :
  Livemode.signinImpl samplePlatform (request_with_cookie None)
    (livemodeOptions MapStore) (fresh ∅)
  = (Returns (mkResponse 200
                (HtmlBody "g_id_onload test-client-id http://localhost:3000/auth/callback")
                []), fresh ∅).
Proof.
  exact (proj1 (live_signin_cases _ samplePlatform (request_with_cookie None)
                  (livemodeOptions MapStore) (fresh ∅)) eq_refl).
Defined.

(** Session resolution and render-signin only read the store: in both
    strategies the calls they add are at most one, a [get]; they set no
    header when they do not redirect, and never call [put] or [delete]. *)
Theorem lookups_only_read :
  forall (S : Type) (P : Platform) (c : Request) (o : Options S)
         (w : World S) (next : M S unit),
    (exists w' l, Testmode.sessionMiddlewareImpl c o next w = next w'
                  /\ w_calls w' = w_calls w ++ l /\ Forall is_get l
                  /\ (length l <= 1)%nat /\ w_headers w' = w_headers w)
    /\ (exists w' l, Livemode.sessionMiddlewareImpl c o next w = next w'
                     /\ w_calls w' = w_calls w ++ l /\ Forall is_get l
                     /\ (length l <= 1)%nat /\ w_headers w' = w_headers w)
    /\ (exists l, w_calls (snd (Testmode.signinImpl P c o w)) = w_calls w ++ l
                  /\ Forall is_get l /\ (length l <= 1)%nat)
    /\ (exists l, w_calls (snd (Livemode.signinImpl P c o w)) = w_calls w ++ l
                  /\ Forall is_get l /\ (length l <= 1)%nat).
Proof.
  intros S P c o w next.
  assert (G : forall id, Forall is_get [CallGet id])
    by (intros; constructor; [exact I | constructor]).
  repeat split.
  - rewrite middleware_eq. do 2 eexists. split; [reflexivity|].
    split; [reflexivity|]. split; [apply G|]. split; [simpl; lia | reflexivity].
  - rewrite live_middleware_eq. destruct (live_cookie c o) as [id|].
    + exists (world_after_lookup (sessionStore o) id "Session not found" w),
        [CallGet id].
      split; [reflexivity|]. split; [reflexivity|]. split; [apply G|].
      split; [simpl; lia | reflexivity].
    + exists (world_with_session (Invalid (Some "No session cookie")) w), [].
      split; [reflexivity|]. split; [simpl; now rewrite app_nil_r|].
      split; [constructor|]. split; [simpl; lia | reflexivity].
  - rewrite signin_eq. eexists. split; [reflexivity|].
    split; [apply G | simpl; lia].
  - rewrite live_signin_eq. destruct (live_cookie c o) as [id|].
    + exists [CallGet id]. split; [|split; [apply G | simpl; lia]].
      cbv zeta.
      destruct (store_get (sessionStore o) id (w_store w)) as [[[v|]|e] s'];
        reflexivity.
    + exists []. split; [simpl; now rewrite app_nil_r|].
      split; [constructor | simpl; lia].
Qed.

(** ** Simulated strategy: what the cookie parsing guarantees *)

Section Parsing_lemmas.
Import JS Scoping.

Lemma split_pieces c s : Forall (fun p => contains c p = false) (split c s).
Proof.
  induction s as [|a r IH]; simpl.
  - repeat constructor.
  - destruct (Ascii.eqb a c) eqn:E.
    + constructor; [reflexivity | exact IH].
    + destruct (split c r) as [|h t]; [repeat constructor; simpl; now rewrite E|].
      inversion IH as [|? ? Hh Ht]; subst.
      constructor; [simpl; now rewrite E, Hh | exact Ht].
Qed.

Lemma contains_trimStart c s :
  contains c s = false -> contains c (trimStart s) = false.
Proof.
  induction s as [|a r IH]; simpl; [reflexivity|].
  intros H. destruct (is_whitespace a); [|exact H].
  apply orb_false_iff in H as [_ H]. now apply IH.
Qed.

Lemma contains_trimEnd c s :
  contains c s = false -> contains c (trimEnd s) = false.
Proof.
  induction s as [|a r IH]; simpl; [reflexivity|].
  intros H. apply orb_false_iff in H as [Ha Hr]. specialize (IH Hr).
  destruct (trimEnd r) as [|b r'].
  - destruct (is_whitespace a); simpl; [reflexivity | now rewrite Ha].
  - simpl in *. now rewrite Ha, IH.
Qed.

Lemma contains_drop c n s :
  contains c s = false -> contains c (drop n s) = false.
Proof.
  revert s. induction n as [|n IH]; intros s H; [exact H|].
  destruct s as [|a r]; [reflexivity|]. simpl in *.
  apply orb_false_iff in H as [_ H]. now apply IH.
Qed.

Lemma contains_before_self c s : contains c (before c s) = false.
Proof.
  induction s as [|a r IH]; simpl; [reflexivity|].
  destruct (Ascii.eqb a c) eqn:E; [reflexivity|]. simpl. now rewrite E.
Qed.

Lemma contains_before c d s :
  contains c s = false -> contains c (before d s) = false.
Proof.
  induction s as [|a r IH]; simpl; [reflexivity|].
  intros H. apply orb_false_iff in H as [Ha Hr].
  destruct (Ascii.eqb a d); [reflexivity|]. simpl. now rewrite Ha, IH.
Qed.

Lemma scopingCookie_piece h sc :
  scopingCookie h = Some sc ->
  contains ";" sc = false /\ startsWith sc cookiePrefix = true.
Proof.
  unfold scopingCookie. destruct h as [h|]; [|discriminate].
  destruct (truthy h); [|discriminate].
  intros F. apply find_some in F as [Hin Hp]. split; [|exact Hp].
  apply in_map_iff in Hin as (p & <- & Hin).
  pose proof (split_pieces ";" h) as A.
  rewrite List.Forall_forall in A. specialize (A p Hin).
  unfold trim. now apply contains_trimEnd, contains_trimStart.
Qed.

Lemma resolved_charset h :
  contains "=" (resolved_sessionId h) = false
  /\ contains ";" (resolved_sessionId h) = false.
Proof.
  unfold resolved_sessionId.
  destruct (scopingCookie h) as [sc|] eqn:E; [|split; reflexivity].
  apply scopingCookie_piece in E as [E _]. split.
  - apply contains_before_self.
  - unfold cookieValue. now apply contains_before, contains_drop.
Qed.

Lemma split_app_sep c h rest :
  split c (h +:+ String c rest) = split c h ++ split c rest.
Proof.
  induction h as [|a h IH].
  - change ("" +:+ String c rest) with (String c rest). simpl.
    now rewrite Ascii.eqb_refl.
  - change (String a h +:+ String c rest) with (String a (h +:+ String c rest)).
    simpl. rewrite IH. destruct (Ascii.eqb a c); [reflexivity|].
    destruct (split c h) as [|h0 t0] eqn:E; [|reflexivity].
    exfalso. exact (split_not_nil c h E).
Qed.

Lemma find_app {A} (f : A -> bool) l1 l2 :
  List.find f (l1 ++ l2) =
  match List.find f l1 with Some x => Some x | None => List.find f l2 end.
Proof.
  induction l1 as [|x l1 IH]; simpl; [reflexivity|].
  destruct (f x); [reflexivity | exact IH].
Qed.

Lemma truthy_append a b : truthy a = true -> truthy (a +:+ b) = true.
Proof. destruct a; [discriminate | reflexivity]. Qed.

End Parsing_lemmas.

(** Cookies are read left to right: for a header made of a non-empty part,
    a ';' and a rest, the scoping cookie is the one of the first part when
    it has one, and the one of the rest otherwise.  So the first scoping
    cookie of a header decides, and cookies of other names before it are
    passed over. *)
Theorem scopingCookie_first_wins :
  forall (h rest : string),
    h <> "" ->
    Scoping.scopingCookie (Some (h +:+ ";" +:+ rest)) =
      match Scoping.scopingCookie (Some h) with
      | Some sc => Some sc
      | None => Scoping.scopingCookie (Some rest)
      end
    /\ Scoping.resolved_sessionId (Some (h +:+ ";" +:+ rest)) =
         match Scoping.scopingCookie (Some h) with
         | Some _ => Scoping.resolved_sessionId (Some h)
         | None => Scoping.resolved_sessionId (Some rest)
         end.
Proof.
  intros h rest Hh.
  assert (E : Scoping.scopingCookie (Some (h +:+ ";" +:+ rest)) =
              match Scoping.scopingCookie (Some h) with
              | Some sc => Some sc
              | None => Scoping.scopingCookie (Some rest)
              end).
  { unfold Scoping.scopingCookie.
    change (h +:+ ";" +:+ rest) with (h +:+ String ";" rest).
    rewrite (truthy_append h _ (truthy_nonempty _ Hh)), (truthy_nonempty _ Hh).
    rewrite split_app_sep, map_app, find_app.
    destruct (List.find _ (map JS.trim (JS.split ";" h))); [reflexivity|].
    destruct rest; reflexivity. }
  split; [exact E|].
  unfold Scoping.resolved_sessionId. rewrite E.
  destruct (Scoping.scopingCookie (Some h)); reflexivity.
Qed.

Lemma scopingCookie_first_wins_witness :
  Scoping.resolved_sessionId
    (Some ("theme=dark; testmode-session-id=alice" +:+ ";"
           +:+ " testmode-session-id=bob"))
  = "alice".
Proof.
  rewrite (proj2 (scopingCookie_first_wins
                    "theme=dark; testmode-session-id=alice"
                    " testmode-session-id=bob" ltac:(discriminate))).
  reflexivity.
Defined.

(** No request reaches a session id that contains '=' or ';': whatever the
    Cookie header, the key the middleware and render-signin look up and the
    key handle-signout deletes is different from such an id.  A record that
    test-signin stored under such an id is never found again through the
    Simulated strategy. *)
Theorem ids_out_of_reach :
  forall (S : Type) (P : Platform) (c : Request) (o : Options S)
         (w : World S) (next : M S unit) (id : string),
    Scoping.contains "=" id = true \/ Scoping.contains ";" id = true ->
    exists k,
      k <> id
      /\ Testmode.sessionMiddlewareImpl c o next w =
           next (world_after_lookup (sessionStore o) k "No test session" w)
      /\ w_calls (snd (Testmode.signinImpl P c o w)) = w_calls w ++ [CallGet k]
      /\ w_calls (snd (Testmode.signoutImpl c o w)) =
           w_calls w ++ match store_delete (sessionStore o) with
                        | Some _ => [CallDelete k]
                        | None => []
                        end.
Proof.
  intros S P c o w next id H.
  exists (Scoping.resolved_sessionId (req_cookie_header c)).
  destruct (resolved_charset (req_cookie_header c)) as [He Hs].
  repeat split.
  - intros E. rewrite E in He, Hs. destruct H as [H|H]; congruence.
  - apply middleware_eq.
  - rewrite signin_eq. reflexivity.
  - rewrite signout_eq. unfold world_with_headers, world_after_delete. simpl.
    destruct (store_delete (sessionStore o)); simpl; [reflexivity|].
    now rewrite app_nil_r.
Qed.

Lemma ids_out_of_reach_witness :
  exists k,
    k <> "team=blue"
    /\ Testmode.sessionMiddlewareImpl (echo_request "team=blue")
         (testmodeOptions MapStore) (ret tt) (fresh ∅)
       = (Returns tt, world_after_lookup MapStore k "No test session" (fresh ∅)).
Proof.
  destruct (ids_out_of_reach _ samplePlatform (echo_request "team=blue")
              (testmodeOptions MapStore) (fresh ∅) (ret tt) "team=blue"
              (or_introl eq_refl)) as (k & N & E & _).
  exists k. split; [exact N | exact E].
Defined.

(** ** Simulated strategy: how the operations compose *)

(** Test sign-in, then the session: once test-signin has stored its
    record, every request whose Cookie header resolves to the record's
    session id is given that record by the middleware, and render-signin
    answers it with 'Already signed in' and the record, for every store
    that returns on [get] what was [put]. *)
Theorem test_signin_then_session :
  forall (S : Type) (P : Platform) (c c2 : Request) (o : Options S)
         (w w2 : World S) (next : M S unit)
         (data : TestSigninBody) (nm em : string) (s1 s2 : S),
    req_json c = Returns (JsonObject data) ->
    body_name data = Some nm -> body_email data = Some em ->
    nm <> "" -> em <> "" ->
    let sid := match custom_sessionID data with
               | Some s => s
               | None => "testmode-session"
               end in
    let session := mkValidSessionData sid nm em "test-credential" in
    store_put (sessionStore o) session (w_store w) = (Returns tt, s1) ->
    store_get (sessionStore o) sid s1 = (Returns (Some session), s2) ->
    Scoping.resolved_sessionId (req_cookie_header c2) = sid ->
    w_store w2 = s1 ->
    w_store (snd (Testmode.testSigninImpl c o w)) = s1
    /\ Testmode.sessionMiddlewareImpl c2 o next w2 =
         next (mkWorld s2 (w_calls w2 ++ [CallGet sid]) (Some (Valid session))
                       (w_headers w2))
    /\ fst (Testmode.signinImpl P c2 o w2) =
         Returns (mkResponse 200 (JsonBody (JAlreadySignedIn session)) (w_headers w2)).
Proof.
  intros S P c c2 o w w2 next data nm em s1 s2 Hj Hn He Nn Ne sid session
         Hput Hget Hr Hw.
  repeat split.
  - rewrite (test_signin_eq c o w data nm em Hj Hn He Nn Ne). cbv zeta.
    fold sid. fold session. rewrite Hput. cbn [fst snd].
    destruct (custom_sessionID data) as [s|]; [|reflexivity].
    destruct (header_value_ok s); reflexivity.
  - rewrite middleware_eq, Hr. unfold world_after_lookup.
    rewrite Hw, Hget. reflexivity.
  - rewrite signin_eq. cbv zeta. rewrite Hr, Hw, Hget. reflexivity.
Qed.

Lemma test_signin_then_session_witness :
  let o := testmodeOptions MapStore in
  let session := mkValidSessionData "session-alice-123" "Alice"
                   "alice@example.com" "test-credential" in
  let s1 := w_store (snd (Testmode.testSigninImpl
               (test_signin_request "Alice" "alice@example.com"
                  (Some "session-alice-123")) o (fresh ∅))) in
  Testmode.sessionMiddlewareImpl (echo_request "session-alice-123") o (ret tt)
    (fresh s1)
  = (Returns tt,
     mkWorld s1 [CallGet "session-alice-123"] (Some (Valid session)) []).
Proof.
  cbv zeta.
  refine (proj1 (proj2 (test_signin_then_session _ samplePlatform
            (test_signin_request "Alice" "alice@example.com"
               (Some "session-alice-123"))
            (echo_request "session-alice-123")
            (testmodeOptions MapStore) (fresh ∅) (fresh _) (ret tt)
            _ "Alice" "alice@example.com" _ _
            eq_refl eq_refl eq_refl _ _ eq_refl eq_refl eq_refl eq_refl)));
    discriminate.
Defined.



(** Sign-out of the Simulated strategy over the in-memory store signs out
    and is idempotent: afterwards the middleware resolves the same request
    to 'No test session' and render-signin shows the form again; a second
    sign-out gives the same response and leaves the store as the first
    did. *)
Theorem simulated_signout_signs_out :
  forall (P : Platform) (c : Request) (m : gmap string ValidSessionData),
    let o := testmodeOptions MapStore in
    let once := Testmode.signoutImpl c o (fresh m) in
    let m1 := w_store (snd once) in
    let twice := Testmode.signoutImpl c o (fresh m1) in
    w_session (snd (Testmode.sessionMiddlewareImpl c o (ret tt) (fresh m1)))
      = Some (Invalid (Some "No test session"))
    /\ fst (Testmode.signinImpl P c o (fresh m1))
       = Returns (mkResponse 200 (HtmlBody (Testmode.signinForm (Date_now P))) [])
    /\ fst twice = fst once
    /\ w_store (snd twice) = m1.
Proof.
  intros P c m o once m1 twice.
  assert (E : m1 = delete (Scoping.resolved_sessionId (req_cookie_header c)) m).
  { unfold m1, once. rewrite signout_eq. reflexivity. }
  repeat split.
  - rewrite middleware_eq. unfold world_after_lookup, ret. simpl.
    now rewrite E, lookup_delete_eq.
  - rewrite signin_eq. cbv zeta. simpl. now rewrite E, lookup_delete_eq.
  - unfold twice, once. rewrite !signout_eq. reflexivity.
  - unfold twice. rewrite signout_eq. simpl. rewrite E.
    apply delete_id, lookup_delete_eq.
Qed.

(** ** Dispatch on the mode *)

(** The test sign-in route exists in Simulated mode only: in Live mode
    POST /test/signin is answered 400 'Testmode not enabled' and nothing is
    called or set, whatever the body.  In Simulated mode POST /callback is a
    redirect to '/' that never calls the store, whatever is posted. *)
Theorem routes_by_mode :
  forall (S : Type) (P : Platform) (c : Request) (o : Options S) (w : World S),
    (mode o = livemode ->
     route_test_signin P c o w =
       (Returns (mkResponse 400 (JsonBody (JError "Testmode not enabled"))
                   (w_headers w)), w))
    /\ (mode o = testmode ->
        route_test_signin P c o w = Testmode.testSigninImpl c o w
        /\ exists r w', route_callback P c o w = (Returns r, w')
                        /\ status r = 302
                        /\ headers_get "Location" (headers r) = Some (Raw "/")
                        /\ w_store w' = w_store w /\ w_calls w' = w_calls w).
Proof.
  intros S P c o w. split; intros H.
  - unfold route_test_signin, authImplementation. rewrite H. reflexivity.
  - unfold route_test_signin, route_callback, authImplementation. rewrite H.
    split; [reflexivity|]. simpl. unfold Testmode.callbackImpl, c_redirect.
    do 2 eexists. split; [reflexivity|]. split; [reflexivity|].
    split; [apply headers_get_set | split; reflexivity].
Qed.

Lemma routes_by_mode_witness :
  route_test_signin samplePlatform
    (test_signin_request "John Doe" "john@example.com" None)
    (livemodeOptions MapStore) (fresh ∅)
  = (Returns (mkResponse 400 (JsonBody (JError "Testmode not enabled")) []), fresh ∅).
Proof.
  exact (proj1 (routes_by_mode _ samplePlatform
                  (test_signin_request "John Doe" "john@example.com" None)
                  (livemodeOptions MapStore) (fresh ∅)) eq_refl).
Defined.

(** ** The first Simulated strategy ([src/testmode.tsx], one fixed id) *)

Module TestmodeV1.
Section Impl.
Context {S : Type}.
Variable P : Platform.

Definition TEST_SESSION_ID : string := "testmode-session".

(** The sign-in form, abridged: name and email only. *)
Definition signinForm : string :=
  "<html><body><h1>Test Mode Sign In</h1><form id=testSignin></form></body></html>".

(** [sessionMiddlewareImpl], lines 7-20. *)
Definition sessionMiddlewareImpl (c : Request) (options : Options S)
    (next : M S unit) : M S unit :=
  let sessionStore := sessionStore options in
  try_catch
    (session <- call_get sessionStore TEST_SESSION_ID ;;
     match session with
     | Some s => c_set_session (Valid s)
     | None => c_set_session (Invalid (Some "No test session"))
     end)
    (fun _ => c_set_session (Invalid (Some "Session store error"))) ;;
  next.

(** [signinImpl], lines 22-67. *)
Definition signinImpl (c : Request) (options : Options S) : M S Response :=
  let sessionStore := sessionStore options in
  returned <-
    try_catch
      (currentSession <- call_get sessionStore TEST_SESSION_ID ;;
       match currentSession with
       | Some s => r <- c_json (JAlreadySignedIn s) 200 ;; ret (Some r)
       | None => ret None
       end)
      (fun _ => ret None) ;;
  match returned with
  | Some r => ret r
  | None => c_html signinForm
  end.

(** [testSigninImpl], lines 69-97; the body is cast to
    [{ email: string; name: string }]. *)
Definition testSigninImpl (c : Request) (options : Options S) : M S Response :=
  parsed <-
    try_catch
      (data <- await (req_json c) ;; ret (inl data))
      (fun _ => r <- c_json (JError "Invalid JSON body") 400 ;; ret (inr r)) ;;
  match parsed with
  | inr r => ret r
  | inl JsonNull =>
      throw "TypeError: Cannot read properties of null (reading 'email')"
  | inl (JsonObject data) =>
      match body_email data, body_name data with
      | Some data_email, Some data_name =>
          if negb (JS.truthy data_email) || negb (JS.truthy data_name)
          then c_json (JError "email and name are required") 400
          else
            let sessionStore := sessionStore options in
            let session :=
              mkValidSessionData TEST_SESSION_ID data_name data_email
                                 "test-credential" in
            try_catch
              (call_put sessionStore session ;;
               c_json (JSuccess session) 200)
              (fun _ => c_json (JError "Failed to store session") 500)
      | _, _ => c_json (JError "email and name are required") 400
      end
  end.

(** [callbackImpl], lines 99-102. *)
Definition callbackImpl (c : Request) (_options : Options S) : M S Response :=
  c_redirect "/".

(** [signoutImpl], lines 104-115. *)
Definition signoutImpl (c : Request) (options : Options S) : M S Response :=
  let sessionStore := sessionStore options in
  try_catch
    (match store_delete sessionStore with
     | Some del => call_delete del TEST_SESSION_ID
     | None => ret tt
     end)
    (fun _ => ret tt) ;;
  c_redirect "/".

End Impl.
End TestmodeV1.

(** Session scoping is backward compatible: for a request without a
    scoping cookie the scoped middleware, render-signin (up to the markup
    of the form) and handle-signout do what the fixed-id strategy did, and
    for a body without a non-empty sessionID so does test-signin. *)
Theorem scoping_backward_compatible :
  forall (S : Type) (P : Platform) (c : Request) (o : Options S)
         (w : World S) (next : M S unit),
    (Scoping.scopingCookie (req_cookie_header c) = None ->
     Testmode.sessionMiddlewareImpl c o next w
       = TestmodeV1.sessionMiddlewareImpl c o next w
     /\ Testmode.signoutImpl c o w = TestmodeV1.signoutImpl c o w
     /\ snd (Testmode.signinImpl P c o w) = snd (TestmodeV1.signinImpl c o w)
     /\ (forall v s', store_get (sessionStore o) "testmode-session" (w_store w)
                        = (Returns (Some v), s') ->
           fst (Testmode.signinImpl P c o w) = fst (TestmodeV1.signinImpl c o w)))
    /\ ((forall data, req_json c = Returns (JsonObject data) ->
                       custom_sessionID data = None) ->
        Testmode.testSigninImpl c o w = TestmodeV1.testSigninImpl c o w).
Proof.
  intros S P c o w next. split.
  - intros H.
    assert (E : Scoping.resolved_sessionId (req_cookie_header c)
                = "testmode-session")
      by (unfold Scoping.resolved_sessionId; now rewrite H).
    repeat split.
    + rewrite middleware_eq, E.
      unfold TestmodeV1.sessionMiddlewareImpl, TestmodeV1.TEST_SESSION_ID,
        bind, try_catch, call_get, c_set_session, world_after_lookup,
        session_of_get. cbv zeta.
      destruct (store_get _ _ _) as [[[s|]|e] s']; reflexivity.
    + rewrite signout_eq, E.
      unfold TestmodeV1.signoutImpl, TestmodeV1.TEST_SESSION_ID, bind,
        try_catch, call_delete, c_redirect, ret, world_after_delete,
        delete_throws, world_with_headers. cbv zeta.
      destruct (store_delete (sessionStore o)) as [del|]; simpl.
      * destruct (del "testmode-session" (w_store w)) as [[[]|e] s'];
          reflexivity.
      * destruct w; reflexivity.
    + rewrite signin_eq, E.
      unfold TestmodeV1.signinImpl, TestmodeV1.TEST_SESSION_ID, bind,
        try_catch, call_get, c_json, c_html, ret. cbv zeta.
      destruct (store_get _ _ _) as [[[s|]|e] s']; reflexivity.
    + intros v s' G. rewrite signin_eq, E.
      unfold TestmodeV1.signinImpl, TestmodeV1.TEST_SESSION_ID, bind,
        try_catch, call_get, c_json, c_html, ret. cbv zeta.
      rewrite G. reflexivity.
  - intros H.
    unfold Testmode.testSigninImpl, TestmodeV1.testSigninImpl, bind, try_catch,
      await, ret.
    destruct (req_json c) as [[|data]|e] eqn:J; [reflexivity| |reflexivity].
    specialize (H data eq_refl).
    destruct (body_email data) as [em|]; [|reflexivity].
    destruct (body_name data) as [nm|]; [|reflexivity].
    destruct (negb (JS.truthy em) || negb (JS.truthy nm)); [reflexivity|].
    unfold custom_sessionID in H.
    unfold JS.or_else, JS.truthy_opt, Testmode.TEST_SESSION_ID,
      TestmodeV1.TEST_SESSION_ID, call_put, c_header, c_json.
    destruct (body_sessionID data) as [[|a s]|]; try discriminate; simpl;
      destruct (store_put _ _ _) as [[[]|e] s']; reflexivity.
Qed.

Lemma scoping_backward_compatible_witness :
  let c := request_with_cookie (Some "theme=dark; lang=en") in
  let john := session_of "testmode-session" "John Doe" "john@example.com" in
  let w := fresh (<["testmode-session" := john]> ∅ : gmap string ValidSessionData) in
  Testmode.sessionMiddlewareImpl c (testmodeOptions MapStore) (ret tt) w
  = TestmodeV1.sessionMiddlewareImpl c (testmodeOptions MapStore) (ret tt) w.
Proof.
  exact (proj1 (proj1 (scoping_backward_compatible _ samplePlatform
                   (request_with_cookie (Some "theme=dark; lang=en"))
                   (testmodeOptions MapStore) _ (ret tt)) eq_refl)).
Defined.

(** ** The handlers before the strategies were split out ([src/index.tsx]
       with the handlers inline and the options from the provider) *)

Module Legacy.
Section Impl.
Context {S : Type}.
Variable P : Platform.

(** [verifyCredential], lines 98-106. *)
Definition verifyCredential (credential : string) : M S (option TokenInfo) :=
  try_catch
    (response <- await (fetch P ("https://oauth2.googleapis.com/tokeninfo?id_token="
                                  +:+ credential)) ;;
     if negb (fr_ok response) then ret None
     else await (fr_json response))
    (fun _ => ret None).

(** GET /signin, lines 153-172. *)
Definition signin (c : Request) (options : Options S) : M S Response :=
  let COOKIE_NAME := JS.or_else (cookieName options) "auth_session_cookie" in
  let sessionStore := sessionStore options in
  let sessionId := req_getCookie c COOKIE_NAME in
  session <-
    (match sessionId with
     | Some id => if JS.truthy id then call_get sessionStore id else ret None
     | None => ret None
     end) ;;
  match session with
  | Some _ => c_redirect "/"
  | None =>
      let clientId := clientId options in
      let loginUri := callbackUrl options in
      match renderSignInPage options with
      | Some render =>
          let page := render clientId loginUri in
          c_html (match page with Some p => p | None => "" end)
      | None => c_html (GoogleSignInButton P clientId loginUri)
      end
  end.

(** POST /auth, lines 175-202. *)
Definition auth (c : Request) (options : Options S) : M S Response :=
  let COOKIE_NAME := JS.or_else (cookieName options) "auth_session_cookie" in
  let COOKIE_DOMAIN := cookieDomain options in
  let SESSION_DURATION :=
    match sessionDurationSeconds options with
    | Some n => if n =? 0 then 3600 * 24 * 365 else n
    | None => 3600 * 24 * 365
    end in
  let sessionStore := sessionStore options in
  data <- await (req_parseBody c) ;;
  tokenInfo <- verifyCredential (cb_credential data) ;;
  match tokenInfo with
  | Some tokenInfo =>
      let session :=
        mkValidSessionData (randomUUID P) (ti_name tokenInfo)
                           (ti_email tokenInfo) (cb_credential data) in
      call_put sessionStore session ;;
      setCookie COOKIE_NAME (sessionId session)
        (mkCookieOptions true "Lax" "/" SESSION_DURATION
           (if JS.truthy_opt COOKIE_DOMAIN then COOKIE_DOMAIN else None)) ;;
      c_redirect "/"
  | None => c_text "Invalid Google Sign-In"
  end.

(** GET /signout, lines 205-217. *)
Definition signout (c : Request) (options : Options S) : M S Response :=
  let COOKIE_NAME := JS.or_else (cookieName options) "auth_session_cookie" in
  let COOKIE_DOMAIN := cookieDomain options in
  setCookie COOKIE_NAME ""
    (mkCookieOptions true "Lax" "/" 0
       (if JS.truthy_opt COOKIE_DOMAIN then COOKIE_DOMAIN else None)) ;;
  c_redirect "/".

(** [sessionMiddleware], lines 128-147: the lookup is not guarded. *)
Definition sessionMiddleware (c : Request) (options : Options S)
    (next : M S unit) : M S unit :=
  let COOKIE_NAME := JS.or_else (cookieName options) "auth_session_cookie" in
  let sessionStore := sessionStore options in
  let sessionId := req_getCookie c COOKIE_NAME in
  (match sessionId with
   | Some id =>
       if JS.truthy id then
         session <- call_get sessionStore id ;;
         match session with
         | Some s => c_set_session (Valid s)
         | None => c_set_session (Invalid (Some "Session not found"))
         end
       else c_set_session (Invalid (Some "No session cookie"))
   | None => c_set_session (Invalid (Some "No session cookie"))
   end) ;;
  next.

End Impl.
End Legacy.

(** The Live strategy keeps the behaviour of the inline handlers:
    sign-in, callback and sign-out are unchanged, and the middleware is
    unchanged whenever the lookup does not throw.  When the lookup throws,
    the original middleware threw on without running [next] and without
    setting a session value, where the Live strategy sets Invalid 'Session
    store error' and runs [next]. *)
Theorem live_refines_legacy :
  forall (S : Type) (P : Platform) (c : Request) (o : Options S)
         (w : World S) (next : M S unit),
    Livemode.signinImpl P c o w = Legacy.signin P c o w
    /\ Livemode.callbackImpl P c o w = Legacy.auth P c o w
    /\ Livemode.signoutImpl c o w = Legacy.signout c o w
    /\ ((forall id e s', live_cookie c o = Some id ->
           store_get (sessionStore o) id (w_store w) <> (Throws e, s')) ->
        Livemode.sessionMiddlewareImpl c o next w = Legacy.sessionMiddleware c o next w)
    /\ (forall id e s', live_cookie c o = Some id ->
          store_get (sessionStore o) id (w_store w) = (Throws e, s') ->
          Legacy.sessionMiddleware c o next w
            = (Throws e, mkWorld s' (w_calls w ++ [CallGet id]) (w_session w)
                                 (w_headers w))
          /\ Livemode.sessionMiddlewareImpl c o next w
             = next (mkWorld s' (w_calls w ++ [CallGet id])
                             (Some (Invalid (Some "Session store error")))
                             (w_headers w))).
Proof.
  intros S P c o w next.
  split; [reflexivity|]. split; [reflexivity|]. split; [reflexivity|].
  split.
  - intros H. rewrite live_middleware_eq.
    unfold Legacy.sessionMiddleware, live_cookie in *. cbv zeta.
    unfold bind, call_get, c_set_session, world_after_lookup,
      world_with_session, session_of_get.
    destruct (req_getCookie c _) as [[|a id]|]; simpl; try reflexivity.
    specialize (H (String a id)). simpl in H.
    destruct (store_get (sessionStore o) (String a id) (w_store w))
      as [[[s|]|e] s']; try reflexivity.
    exfalso. exact (H e s' eq_refl eq_refl).
  - intros id e s' Hc G. split.
    + unfold Legacy.sessionMiddleware, live_cookie in *. cbv zeta.
      unfold bind, call_get.
      destruct (req_getCookie c _) as [[|a id']|]; try discriminate.
      simpl in Hc. injection Hc as <-. simpl. rewrite G. reflexivity.
    + rewrite live_middleware_eq, Hc. unfold world_after_lookup.
      rewrite G. reflexivity.
Qed.

Lemma live_refines_legacy_witness :
  let c := request_with_session_cookie "auth_session_cookie" "error-session-id" in
  let o := livemodeOptions (RejectingStore "Session store error") in
  Legacy.sessionMiddleware c o (ret tt) (fresh tt)
  = (Throws "Session store error",
     mkWorld tt [CallGet "error-session-id"] None []).
Proof.
  exact (proj1 (proj2 (proj2 (proj2 (proj2
           (live_refines_legacy _ samplePlatform
              (request_with_session_cookie "auth_session_cookie" "error-session-id")
              (livemodeOptions (RejectingStore "Session store error"))
              (fresh tt) (ret tt)))))
           "error-session-id" "Session store error" tt eq_refl eq_refl)).
Defined.

(** ** The Workers KV session store ([src/kvSessionStore.ts]) *)

(** What the adapter uses of a [KVNamespace]: [get] settles to the value or
    to null. *)
Record KVNamespace (K : Type) := mkKVNamespace {
  kv_get : string -> K -> outcome (option string) * K;
  kv_put : string -> string -> K -> outcome unit * K;
  kv_delete : string -> K -> outcome unit * K
}.
Arguments kv_get {K} _ _ _.
Arguments kv_put {K} _ _ _ _.
Arguments kv_delete {K} _ _ _.

(** [JSON.stringify] on session records and [JSON.parse] on stored text:
    [parse] throws on text that is not JSON, and [None] stands for a falsy
    parsed value such as null. *)
Record JSONCodec := mkJSONCodec {
  JSON_stringify : ValidSessionData -> string;
  JSON_parse : string -> outcome (option ValidSessionData)
}.

(** [createKVSessionStore], lines 7-21. *)
Definition createKVSessionStore {K} (J : JSONCodec) (kv : KVNamespace K)
  : SessionStore K :=
  mkSessionStore K
    (fun sessionId k =>
       let '(r, k') := kv_get kv sessionId k in
       match r with
       | Returns value =>
           (match value with
            | Some v => if JS.truthy v then JSON_parse J v else Returns None
            | None => Returns None
            end, k')
       | Throws e => (Throws e, k')
       end)
    (fun data k => kv_put kv (sessionId data) (JSON_stringify J data) k)
    (Some (fun sessionId k => kv_delete kv sessionId k)).

(** A namespace held in memory. *)
Definition MapKV : KVNamespace (gmap string string) :=
  mkKVNamespace _
    (fun key m => (Returns (m !! key), m))
    (fun key value m => (Returns tt, <[key := value]> m))
    (fun key m => (Returns tt, delete key m)).

(** A codec for the sample inputs: the four fields joined by '|', for
    fields without '|'. *)
Definition sampleCodec : JSONCodec :=
  mkJSONCodec
    (fun d => sessionId d +:+ "|" +:+ name d +:+ "|" +:+ email d
              +:+ "|" +:+ credential d)
    (fun s => match JS.split "|" s with
              | [i; n; e; cr] => Returns (Some (mkValidSessionData i n e cr))
              | _ => Throws "SyntaxError"
              end).

(** Round trip through the KV store: after [put] of a record whose JSON
    text is not empty and parses back to it, [get] of its session id
    returns the record, [get] of any other id returns what it returned
    before, and after [delete] of its id [get] returns undefined. *)
Theorem kv_put_get_delete :
  forall (J : JSONCodec) (data : ValidSessionData) (m : gmap string string)
         (other : string),
    let st := createKVSessionStore J MapKV in
    let m1 := snd (store_put st data m) in
    JSON_stringify J data <> "" ->
    JSON_parse J (JSON_stringify J data) = Returns (Some data) ->
    fst (store_put st data m) = Returns tt
    /\ store_get st (sessionId data) m1 = (Returns (Some data), m1)
    /\ (other <> sessionId data -> store_get st other m1 = (fst (store_get st other m), m1))
    /\ (forall del, store_delete st = Some del ->
          store_get st (sessionId data) (snd (del (sessionId data) m1))
            = (Returns None, delete (sessionId data) m1)).
Proof.
  intros J data m other st m1 Hne Hp. subst st m1. simpl. repeat split.
  - rewrite lookup_insert_eq, (truthy_nonempty _ Hne). now rewrite Hp.
  - intros N. rewrite lookup_insert_ne by congruence. reflexivity.
  - intros del E. injection E as <-. simpl. now rewrite lookup_delete_eq.
Qed.

Lemma kv_put_get_delete_witness :
  let user := session_of "test-session-id" "Test User" "test@example.com" in
  let st := createKVSessionStore sampleCodec MapKV in
  store_get st "test-session-id" (snd (store_put st user ∅))
  = (Returns (Some user), snd (store_put st user ∅)).
Proof.
  exact (proj1 (proj2 (kv_put_get_delete sampleCodec
           (session_of "test-session-id" "Test User" "test@example.com") ∅ ""
           ltac:(discriminate) eq_refl))).
Defined.

(** What [get] of the KV store does with what the namespace holds: a
    missing key and an empty value both give undefined without parsing; a
    value that does not parse makes [get] reject, which the Live middleware
    turns into Invalid 'Session store error' and render-signin throws on; a
    rejected [kv.get] rejects the same way. *)
Theorem kv_get_cases :
  forall (K : Type) (P : Platform) (J : JSONCodec) (kv : KVNamespace K)
         (c : Request) (o : Options K) (w : World K) (next : M K unit)
         (id : string) (k' : K),
    let st := createKVSessionStore J kv in
    (kv_get kv id (w_store w) = (Returns None, k') \/
     kv_get kv id (w_store w) = (Returns (Some ""), k') ->
     store_get st id (w_store w) = (Returns None, k'))
    /\ (forall v e, kv_get kv id (w_store w) = (Returns (Some v), k') ->
          v <> "" -> JSON_parse J v = Throws e ->
          store_get st id (w_store w) = (Throws e, k')
          /\ (sessionStore o = st -> live_cookie c o = Some id ->
              Livemode.sessionMiddlewareImpl c o next w
                = next (mkWorld k' (w_calls w ++ [CallGet id])
                                (Some (Invalid (Some "Session store error")))
                                (w_headers w))
              /\ fst (Livemode.signinImpl P c o w) = Throws e))
    /\ (forall e, kv_get kv id (w_store w) = (Throws e, k') ->
          store_get st id (w_store w) = (Throws e, k')).
Proof.
  intros K P J kv c o w next id k' st. split; [|split].
  - intros [H|H]; subst st; simpl; rewrite H; reflexivity.
  - intros v e Hg Hv Hp. split.
    + subst st; simpl. rewrite Hg, (truthy_nonempty _ Hv). now rewrite Hp.
    + intros Ho Hc. split.
      * rewrite live_middleware_eq, Hc. unfold world_after_lookup.
        rewrite Ho. subst st. simpl. rewrite Hg, (truthy_nonempty _ Hv), Hp.
        reflexivity.
      * rewrite live_signin_eq, Hc. cbv zeta.
        rewrite Ho. subst st. simpl. rewrite Hg, (truthy_nonempty _ Hv), Hp.
        reflexivity.
  - intros e H. subst st; simpl. now rewrite H.
Qed.

Lemma kv_get_cases_witness :
  let st := createKVSessionStore sampleCodec MapKV in
  let m : gmap string string := <["test-session-id" := "not a record"]> ∅ in
  store_get st "test-session-id" m = (Throws "SyntaxError", m)
  /\ store_get st "missing" m = (Returns None, m).
Proof.
  split.
  - exact (proj1 (proj1 (proj2 (kv_get_cases _ samplePlatform sampleCodec MapKV
             (request_with_cookie None)
             (livemodeOptions (createKVSessionStore sampleCodec MapKV))
             (fresh (<["test-session-id" := "not a record"]> ∅)) (ret tt)
             "test-session-id" _))
             "not a record" "SyntaxError" eq_refl ltac:(discriminate) eq_refl)).
  - exact (proj1 (kv_get_cases _ samplePlatform sampleCodec MapKV
             (request_with_cookie None)
             (livemodeOptions (createKVSessionStore sampleCodec MapKV))
             (fresh (<["test-session-id" := "not a record"]> ∅)) (ret tt)
             "missing" _) (or_introl eq_refl)).
Defined.

(** Render-signin of the Simulated strategy, case by case: when the store
    holds a record under the resolved session id the answer is 200
    'Already signed in' with that record; when it holds none, and also when
    the lookup throws, the answer is the sign-in form, whose session id
    field is pre-filled with the current time.  It never throws. *)
Theorem simulated_signin_cases :
  forall (S : Type) (P : Platform) (c : Request) (o : Options S) (w : World S),
    let id := Scoping.resolved_sessionId (req_cookie_header c) in
    let form := mkResponse 200 (HtmlBody (Testmode.signinForm (Date_now P)))
                           (w_headers w) in
    (forall v s', store_get (sessionStore o) id (w_store w) = (Returns (Some v), s') ->
       fst (Testmode.signinImpl P c o w) =
         Returns (mkResponse 200 (JsonBody (JAlreadySignedIn v)) (w_headers w)))
    /\ (forall s', store_get (sessionStore o) id (w_store w) = (Returns None, s') ->
          fst (Testmode.signinImpl P c o w) = Returns form)
    /\ (forall e s', store_get (sessionStore o) id (w_store w) = (Throws e, s') ->
          fst (Testmode.signinImpl P c o w) = Returns form).
Proof.
  intros S P c o w id form.
  repeat split; intros; rewrite signin_eq; cbv zeta; fold id;
    match goal with H : store_get _ _ _ = _ |- _ => rewrite H end; reflexivity.
Qed.

Lemma simulated_signin_cases_witness :
  fst (Testmode.signinImpl samplePlatform
         (request_with_cookie (Some "testmode-session-id=abc"))
         (testmodeOptions (RejectingStore "Session store error")) (fresh tt))
  = Returns (mkResponse 200 (HtmlBody (Testmode.signinForm "1700000000000")) []).
Proof.
  exact (proj2 (proj2 (simulated_signin_cases _ samplePlatform
           (request_with_cookie (Some "testmode-session-id=abc"))
           (testmodeOptions (RejectingStore "Session store error")) (fresh tt)))
           "Session store error" tt eq_refl).
Defined.
